(** * The learning assets of ai-core: experience store, reward, encoders.

    A shallow embedding of
      - [experience_collector.py]: the [Experience] record, the append-only
        buffer with [collect] / [load_experiences] / [clear], the reward
        function [compute_reward_from_outcome] and [parse_time];
      - [train.py]: [extract_state_vector], [extract_action_vector] and the
        train / validation split at the head of [train].

    Conventions of the embedding.
      - Values read back from the buffer, and the dictionaries the reward
        and the encoders look into, are JSON values (type [json]); an
        operation applied to a value of the wrong dynamic type raises the
        exception Python raises.
      - The arguments of [collect] are Python objects (type [pyobj]): beyond
        the JSON values, tuples, dictionaries with keys that are not
        strings, and objects [json.dumps] refuses.
      - Exceptions are results: [Raise e] in the monad [res].
      - Numbers are exact rationals extended with the non-finite floats
        (type [num]); rounding and overflow of double precision are not
        modelled, and a Python [int] is the rational of the same value.  The
        cast of the encoders to single precision is modelled
        ([to_float32]), on the exact value.
      - A string is a sequence of code points below 256 (type [string]).
      - The buffer file is kept as the list of its lines, each line as
        [json.loads] sees it: the decoded value, or a line it rejects. *)

From Stdlib Require Import String Ascii List ZArith QArith Qround Qabs Bool Lia Lqa.
From Stdlib Require Import DecimalString.
Import ListNotations.

Local Open Scope string_scope.
Local Open Scope list_scope.

(* ===================================================================== *)
(** ** Python primitives                                                  *)
(* ===================================================================== *)

Module Py.

(** *** Exceptions and results *)

Inductive exn : Type :=
| ValueError
| TypeError
| AttributeError
| KeyError
| ZeroDivisionError
| JSONDecodeError.

Inductive res (A : Type) : Type :=
| Ok (a : A)
| Raise (e : exn).

Arguments Ok {A} a.
Arguments Raise {A} e.

Definition bind {A B : Type} (m : res A) (k : A -> res B) : res B :=
  match m with
  | Ok a => k a
  | Raise e => Raise e
  end.

Definition returns {A : Type} (m : res A) : bool :=
  match m with
  | Ok _ => true
  | Raise _ => false
  end.

Declare Scope py_scope.
Delimit Scope py_scope with py.

Notation "x <- m ;; k" := (bind m (fun x => k))
  (at level 61, m at next level, right associativity) : py_scope.

(** *** Numbers *)

Inductive num : Type :=
| Fin (q : Q)
| PInf
| NInf
| NaN.

Definition of_Z (z : Z) : num := Fin (inject_Z z).
Definition of_nat (n : nat) : num := of_Z (Z.of_nat n).

Definition Qltb (a b : Q) : bool := negb (Qle_bool b a).

Definition num_neg (a : num) : num :=
  match a with
  | Fin q => Fin (- q)
  | PInf => NInf
  | NInf => PInf
  | NaN => NaN
  end.

Definition num_add (a b : num) : num :=
  match a, b with
  | NaN, _ | _, NaN => NaN
  | Fin x, Fin y => Fin (x + y)
  | PInf, NInf | NInf, PInf => NaN
  | PInf, _ | _, PInf => PInf
  | NInf, _ | _, NInf => NInf
  end.

Definition num_sub (a b : num) : num :=
  match a, b with
  | NaN, _ | _, NaN => NaN
  | Fin x, Fin y => Fin (x - y)
  | PInf, PInf | NInf, NInf => NaN
  | PInf, _ | _, NInf => PInf
  | NInf, _ | _, PInf => NInf
  end.

(** The sign of a rational, used by the rules for infinities. *)
Definition Qsign (q : Q) : comparison := Qcompare q 0.

Definition inf_of_sign (positive : bool) : num :=
  if positive then PInf else NInf.

Definition inf_times (positive : bool) (b : num) : num :=
  match b with
  | NaN => NaN
  | PInf => inf_of_sign positive
  | NInf => inf_of_sign (negb positive)
  | Fin y =>
      match Qsign y with
      | Eq => NaN
      | Gt => inf_of_sign positive
      | Lt => inf_of_sign (negb positive)
      end
  end.

Definition num_mul (a b : num) : num :=
  match a, b with
  | NaN, _ => NaN
  | Fin x, Fin y => Fin (x * y)
  | PInf, _ => inf_times true b
  | NInf, _ => inf_times false b
  | Fin _, PInf => inf_times true a
  | Fin _, NInf => inf_times false a
  | Fin _, NaN => NaN
  end.

(** [a / b]: Python raises on a zero divisor, whatever the dividend. *)
Definition num_div (a b : num) : res num :=
  match b with
  | Fin y =>
      match Qsign y with
      | Eq => Raise ZeroDivisionError
      | Gt =>
          Ok match a with
             | Fin x => Fin (x / y)
             | other => other
             end
      | Lt =>
          Ok match a with
             | Fin x => Fin (x / y)
             | other => num_neg other
             end
      end
  | NaN => Ok NaN
  | PInf | NInf =>
      Ok match a with
         | Fin _ => Fin 0
         | _ => NaN
         end
  end.

(** Comparisons: every comparison with [NaN] is false. *)
Definition num_ltb (a b : num) : bool :=
  match a, b with
  | NaN, _ | _, NaN => false
  | Fin x, Fin y => Qltb x y
  | NInf, NInf => false
  | NInf, _ => true
  | _, NInf => false
  | PInf, _ => false
  | Fin _, PInf => true
  end.

Definition num_eqb (a b : num) : bool :=
  match a, b with
  | Fin x, Fin y => Qeq_bool x y
  | PInf, PInf | NInf, NInf => true
  | _, _ => false
  end.

Definition num_leb (a b : num) : bool := num_ltb a b || num_eqb a b.

(** [min(a, b)] and [max(a, b)] keep the first argument unless the second
    one is strictly smaller (resp. greater). *)
Definition py_min (a b : num) : num := if num_ltb b a then b else a.
Definition py_max (a b : num) : num := if num_ltb a b then b else a.

(** [bool(x)] of a number. *)
Definition num_truthy (a : num) : bool := negb (num_eqb a (of_Z 0)).

(** [int(x)]: truncation towards zero of a finite number. *)
Definition Qtrunc (q : Q) : Z :=
  if Qle_bool 0 q then Qfloor q else Qceiling q.

(** [np.float32(x)]: the nearest number with a 24-bit significand and an
    exponent between -126 and 127, a tie going to the even significand; a
    magnitude that rounds to 2^128 or more becomes infinite. *)
Definition pow2 (e : Z) : Q :=
  match e with
  | Z0 => 1
  | Zpos p => inject_Z (Z.pow_pos 2 p)
  | Zneg p => 1 # (Pos.pow 2 p)
  end.

(** [floor(log2 a)] of a positive rational. *)
Definition Qlog2 (a : Q) : Z :=
  let e := (Z.log2 (Qnum a) - Z.log2 (Zpos (Qden a)))%Z in
  if Qle_bool (pow2 e) a then e else (e - 1)%Z.

(** The nearest integer, a tie going to the even one. *)
Definition round_half_even (q : Q) : Z :=
  let f := Qfloor q in
  match Qcompare (q - inject_Z f) (1 # 2) with
  | Lt => f
  | Gt => (f + 1)%Z
  | Eq => if Z.even f then f else (f + 1)%Z
  end.

Definition float32_of_Q (q : Q) : num :=
  match Qcompare q 0 with
  | Eq => Fin 0
  | sign =>
      let a := Qabs q in
      let e := Z.max (Qlog2 a) (-126) in
      let ulp := pow2 (e - 23) in
      let r := inject_Z (round_half_even (a / ulp)) * ulp in
      if Qle_bool (pow2 128) r
      then inf_of_sign match sign with Gt => true | _ => false end
      else Fin (Qred match sign with Gt => r | _ => - r end)
  end.

Definition to_float32 (x : num) : num :=
  match x with
  | Fin q => float32_of_Q q
  | other => other
  end.

(** *** Dynamically typed values *)

Local Unset Elimination Schemes.

Inductive json : Type :=
| JNull
| JBool (b : bool)
| JNum (x : num)
| JStr (s : string)
| JArr (items : list json)
| JObj (fields : list (string * json)).

Local Set Elimination Schemes.

Definition dict : Type := list (string * json).

Fixpoint lookup (k : string) (d : dict) : option json :=
  match d with
  | [] => None
  | (k', v) :: rest => if String.eqb k k' then Some v else lookup k rest
  end.

(** [bool(v)] *)
Definition truthy (v : json) : bool :=
  match v with
  | JNull => false
  | JBool b => b
  | JNum x => num_truthy x
  | JStr s => negb (String.eqb s "")
  | JArr items => match items with [] => false | _ => true end
  | JObj fields => match fields with [] => false | _ => true end
  end.

Definition get_or (default : json) (k : string) (d : dict) : json :=
  match lookup k d with
  | Some x => x
  | None => default
  end.

(** [v.get(k, default)]: only a dictionary has the method. *)
Definition py_get (v : json) (k : string) (default : json) : res json :=
  match v with
  | JObj d => Ok (get_or default k d)
  | _ => Raise AttributeError
  end.

(** [v[k]] with a string key. *)
Definition py_getitem (v : json) (k : string) : res json :=
  match v with
  | JObj d => match lookup k d with Some x => Ok x | None => Raise KeyError end
  | _ => Raise TypeError
  end.

(** The number a value stands for in arithmetic and ordering ([bool] is a
    subtype of [int]); every other type raises. *)
Definition as_num (v : json) : res num :=
  match v with
  | JNum x => Ok x
  | JBool b => Ok (of_Z (if b then 1 else 0))
  | _ => Raise TypeError
  end.

(** [v == s] for a string [s]. *)
Definition eq_str (v : json) (s : string) : bool :=
  match v with
  | JStr t => String.eqb t s
  | _ => false
  end.

(** [v == 0] *)
Definition eq_zero (v : json) : bool :=
  match v with
  | JNum x => num_eqb x (of_Z 0)
  | JBool b => negb b
  | _ => false
  end.

(** [len(v)] *)
Definition py_len (v : json) : res nat :=
  match v with
  | JStr s => Ok (String.length s)
  | JArr items => Ok (List.length items)
  | JObj fields => Ok (List.length fields)
  | _ => Raise TypeError
  end.

(** *** Strings *)

(** [c.isspace()] on the code points below 256. *)
Definition is_space (c : ascii) : bool :=
  let n := nat_of_ascii c in
  ((9 <=? n) && (n <=? 13) || (28 <=? n) && (n <=? 32)
   || (n =? 133) || (n =? 160))%nat.

(** [c.lower()] on the code points below 256. *)
Definition lower_char (c : ascii) : ascii :=
  let n := nat_of_ascii c in
  if ((65 <=? n) && (n <=? 90)
      || (192 <=? n) && (n <=? 222) && negb (n =? 215))%nat
  then ascii_of_nat (n + 32)
  else c.

Fixpoint py_lower (s : string) : string :=
  match s with
  | EmptyString => EmptyString
  | String c rest => String (lower_char c) (py_lower rest)
  end.

(** The text without the leading (resp. trailing) characters of the class
    [space]. *)
Fixpoint lstrip (space : ascii -> bool) (s : string) : string :=
  match s with
  | EmptyString => EmptyString
  | String c rest => if space c then lstrip space rest else s
  end.

Fixpoint rstrip (space : ascii -> bool) (s : string) : string :=
  match s with
  | EmptyString => EmptyString
  | String c rest =>
      match rstrip space rest with
      | EmptyString => if space c then EmptyString else String c EmptyString
      | kept => String c kept
      end
  end.

Definition strip_by (space : ascii -> bool) (s : string) : string :=
  lstrip space (rstrip space s).

(** [s.strip()] *)
Definition py_strip (s : string) : string := strip_by is_space s.

(** [sub in s] *)
Fixpoint contains (sub s : string) : bool :=
  match s with
  | EmptyString => prefix sub EmptyString
  | String _ rest => prefix sub s || contains sub rest
  end.

(** [s.replace(old, new)] for a non-empty [old]: the occurrences of [old]
    are taken from left to right without overlap; [skip] counts the
    characters of the current occurrence still to be passed over. *)
Fixpoint replace_from (old new : string) (skip : nat) (s : string) : string :=
  match s with
  | EmptyString => EmptyString
  | String c rest =>
      match skip with
      | S k => replace_from old new k rest
      | O =>
          if prefix old s
          then new ++ replace_from old new (String.length old - 1) rest
          else String c (replace_from old new 0 rest)
      end
  end.

Definition py_replace (old new s : string) : string :=
  replace_from old new 0 s.

(** [s in v] for a string [s]: membership in a list, substring of a
    string, key of a dictionary; the other types are not containers. *)
Definition py_in (s : string) (v : json) : res bool :=
  match v with
  | JArr items => Ok (existsb (fun x => eq_str x s) items)
  | JStr t => Ok (contains s t)
  | JObj d => Ok match lookup s d with Some _ => true | None => false end
  | _ => Raise TypeError
  end.

(** *** [float(s)] of a string

    After the surrounding whitespace is removed, the accepted texts are
<<
      floatvalue  ::= [sign] (floatnumber | "inf" | "infinity" | "nan")
      floatnumber ::= number [("e" | "E") [sign] digitpart]
      number      ::= [digitpart] "." digitpart | digitpart ["."]
      digitpart   ::= digit (["_"] digit)*
>>
    with the words in any letter case; every other text raises
    [ValueError].  The whitespace [float] removes is narrower than that of
    [strip]: the separators 28 to 31 are not part of it. *)

Definition is_float_space (c : ascii) : bool :=
  let n := nat_of_ascii c in
  ((9 <=? n) && (n <=? 13) || (n =? 32) || (n =? 133) || (n =? 160))%nat.

Definition is_digit (c : ascii) : bool :=
  let n := nat_of_ascii c in ((48 <=? n) && (n <=? 57))%nat.

Definition digit_value (c : ascii) : Z := Z.of_nat (nat_of_ascii c - 48).

Fixpoint digitpart_from (after_digit : bool) (s : string) : bool :=
  match s with
  | EmptyString => after_digit
  | String c rest =>
      if is_digit c then digitpart_from true rest
      else if Ascii.eqb c "_" then after_digit && digitpart_from false rest
      else false
  end.

Definition digitpart (s : string) : bool := digitpart_from false s.

(** The integer written by the digits of [s], underscores passed over. *)
Fixpoint digits_value (acc : Z) (s : string) : Z :=
  match s with
  | EmptyString => acc
  | String c rest =>
      if is_digit c then digits_value (10 * acc + digit_value c) rest
      else digits_value acc rest
  end.

Fixpoint digits_count (s : string) : nat :=
  match s with
  | EmptyString => O
  | String c rest =>
      if is_digit c then S (digits_count rest) else digits_count rest
  end.

(** [s] cut at the first occurrence of [c]. *)
Fixpoint split_on (c : ascii) (s : string) : string * option string :=
  match s with
  | EmptyString => (EmptyString, None)
  | String x rest =>
      if Ascii.eqb x c then (EmptyString, Some rest)
      else let (before, after) := split_on c rest in (String x before, after)
  end.

Definition split_sign (s : string) : bool * string :=
  match s with
  | String c rest =>
      if Ascii.eqb c "-" then (true, rest)
      else if Ascii.eqb c "+" then (false, rest)
      else (false, s)
  | EmptyString => (false, s)
  end.

Definition is_empty (s : string) : bool :=
  match s with EmptyString => true | _ => false end.

Definition pow10 (e : Z) : Q :=
  match e with
  | Z0 => 1
  | Zpos p => inject_Z (Z.pow_pos 10 p)
  | Zneg p => 1 # (Pos.pow 10 p)
  end.

Definition float_number (body : string) : option Q :=
  let (mantissa, exponent) := split_on "e" body in
  let (int_part, fraction) := split_on "." mantissa in
  let frac_part := match fraction with Some f => f | None => EmptyString end in
  let mantissa_ok :=
    match fraction with
    | None => digitpart int_part
    | Some f =>
        (is_empty int_part || digitpart int_part) && digitpart f
        || digitpart int_part && is_empty f
    end in
  let exponent_ok :=
    match exponent with
    | None => true
    | Some e => digitpart (snd (split_sign e))
    end in
  let exponent_value :=
    match exponent with
    | None => 0%Z
    | Some e =>
        let (negative, digits) := split_sign e in
        let v := digits_value 0 digits in
        if negative then (- v)%Z else v
    end in
  if mantissa_ok && exponent_ok then
    Some (inject_Z (digits_value (digits_value 0 int_part) frac_part)
          * pow10 (exponent_value - Z.of_nat (digits_count frac_part)))
  else None.

Definition py_float (s : string) : res num :=
  let text := py_lower (strip_by is_float_space s) in
  let (negative, body) := split_sign text in
  if String.eqb body "inf" || String.eqb body "infinity"
  then Ok (inf_of_sign (negb negative))
  else if String.eqb body "nan" then Ok NaN
  else
    match float_number body with
    | Some q => Ok (Fin (if negative then - q else q))
    | None => Raise ValueError
    end.

(** *** Python objects

    What a caller may hand to [collect]: beyond the JSON values, tuples,
    dictionaries whose keys are not strings, and objects [json.dumps]
    refuses (a set stands for them).  The keys are those [json.dumps]
    writes without a [repr] of a float: strings, integers, booleans and
    [None]. *)

Inductive key : Type :=
| KStr (s : string)
| KInt (z : Z)
| KBool (b : bool)
| KNone.

Local Unset Elimination Schemes.

Inductive pyobj : Type :=
| PNone
| PBool (b : bool)
| PNum (x : num)
| PStr (s : string)
| PList (items : list pyobj)
| PTuple (items : list pyobj)
| PDict (fields : list (key * pyobj))
| PSet (items : list pyobj).

Local Set Elimination Schemes.

(** A JSON value as the Python object it is. *)
Fixpoint of_json (v : json) : pyobj :=
  match v with
  | JNull => PNone
  | JBool b => PBool b
  | JNum x => PNum x
  | JStr s => PStr s
  | JArr items => PList (map of_json items)
  | JObj fields =>
      PDict (map (fun kv => (KStr (fst kv), of_json (snd kv))) fields)
  end.

(** [bool(x)] *)
Definition py_truthy (x : pyobj) : bool :=
  match x with
  | PNone => false
  | PBool b => b
  | PNum n => num_truthy n
  | PStr s => negb (String.eqb s "")
  | PList items | PTuple items | PSet items =>
      match items with [] => false | _ => true end
  | PDict fields => match fields with [] => false | _ => true end
  end.

(** The name [json.dumps] writes for a key. *)
Definition key_name (k : key) : string :=
  match k with
  | KStr s => s
  | KInt z => NilZero.string_of_int (Z.to_int z)
  | KBool b => if b then "true" else "false"
  | KNone => "null"
  end.

(** [d[k] = v] on a dictionary with string keys: the value of a key that is
    present is replaced where it stands, a new key goes to the end. *)
Fixpoint set_field (k : string) (v : json) (d : dict) : dict :=
  match d with
  | [] => [(k, v)]
  | (k', v') :: rest =>
      if String.eqb k k' then (k', v) :: rest
      else (k', v') :: set_field k v rest
  end.

(** The dictionary [json.loads] builds from the members of an object, in
    the order of the text. *)
Definition dict_of_pairs (pairs : list (string * json)) : dict :=
  fold_left (fun d kv => set_field (fst kv) (snd kv) d) pairs [].

Local Open Scope py_scope.

(** [json.loads(json.dumps(x))]: a tuple is written as an array, a key as its
    name; members whose keys have the same name are read back as one; an
    object that is not serialisable raises [TypeError]. *)
Fixpoint decoded (x : pyobj) : res json :=
  match x with
  | PNone => Ok JNull
  | PBool b => Ok (JBool b)
  | PNum n => Ok (JNum n)
  | PStr s => Ok (JStr s)
  | PList items | PTuple items =>
      vs <- (fix each (l : list pyobj) : res (list json) :=
               match l with
               | [] => Ok []
               | y :: rest =>
                   v <- decoded y ;; vs <- each rest ;; Ok (v :: vs)
               end) items ;;
      Ok (JArr vs)
  | PDict fields =>
      pairs <- (fix each (l : list (key * pyobj))
                  : res (list (string * json)) :=
                  match l with
                  | [] => Ok []
                  | (k, y) :: rest =>
                      v <- decoded y ;; ps <- each rest ;;
                      Ok ((key_name k, v) :: ps)
                  end) fields ;;
      Ok (JObj (dict_of_pairs pairs))
  | PSet _ => Raise TypeError
  end.

End Py.

(* ===================================================================== *)
(** ** experience_collector.py                                            *)
(* ===================================================================== *)

Module Collector.
Import Py.
Local Open Scope py_scope.

(** The dataclass performs no check on its fields: each holds whatever
    value it was given, a Python object in a record built by [collect], a
    JSON value in a record read back by [load_experiences]. *)
Record ExperienceOf (V : Type) : Type := mkExperience {
  state : V;
  action : V;
  reward : V;
  next_state : V;
  done : V;
  metadata : V;
  timestamp : V
}.

Arguments mkExperience {V} _ _ _ _ _ _ _.
Arguments state {V} _.
Arguments action {V} _.
Arguments reward {V} _.
Arguments next_state {V} _.
Arguments done {V} _.
Arguments metadata {V} _.
Arguments timestamp {V} _.

Abbreviation Experience := (ExperienceOf json).

(** [asdict(self)]: the fields in declaration order. *)
Definition asdict (e : ExperienceOf pyobj) : pyobj :=
  PDict [ (KStr "state", state e);
          (KStr "action", action e);
          (KStr "reward", reward e);
          (KStr "next_state", next_state e);
          (KStr "done", done e);
          (KStr "metadata", metadata e);
          (KStr "timestamp", timestamp e) ].

(** The same dictionary for a record of JSON values. *)
Definition to_dict (e : Experience) : json :=
  JObj [ ("state", state e);
         ("action", action e);
         ("reward", reward e);
         ("next_state", next_state e);
         ("done", done e);
         ("metadata", metadata e);
         ("timestamp", timestamp e) ].

(** A line of the buffer file, as [json.loads(line.strip())] reads it. *)
Inductive line : Type :=
| Encoded (v : json)
| Malformed.

(** [json.dumps(x)], as the line it makes. *)
Definition json_dumps (x : pyobj) : res line :=
  v <- decoded x ;; Ok (Encoded v).

Definition json_loads (l : line) : res json :=
  match l with
  | Encoded v => Ok v
  | Malformed => Raise JSONDecodeError
  end.

(** The line of a record of JSON values: it decodes to the dictionary of
    the fields. *)
Definition to_json (e : Experience) : line := Encoded (to_dict e).

(** What the collector acts on: the buffer file ([None] when the file does
    not exist), the clock behind [datetime.now()] ([clock k] is its [k]-th
    reading) and the warnings printed so far. *)
Record world : Type := mkWorld {
  buffer : option (list line);
  clock : nat -> string;
  ticks : nat;
  warnings : list exn
}.

Definition set_buffer (b : option (list line)) (w : world) : world :=
  {| buffer := b; clock := clock w; ticks := ticks w; warnings := warnings w |}.

Definition warn (e : exn) (w : world) : world :=
  {| buffer := buffer w; clock := clock w; ticks := ticks w;
     warnings := warnings w ++ [e] |}.

(** [datetime.now().isoformat()] *)
Definition now (w : world) : json * world :=
  (JStr (clock w (ticks w)),
   {| buffer := buffer w; clock := clock w; ticks := S (ticks w);
      warnings := warnings w |}).

(** [open(self.buffer_path, 'a')] creates the file when it is missing; the
    line is [experience.to_json()], that is [json.dumps(asdict(experience))],
    and when [json.dumps] raises nothing is written. *)
Definition _append_to_buffer (experience : ExperienceOf pyobj) (w : world)
    : res unit * world :=
  let existing := match buffer w with Some ls => ls | None => [] end in
  match json_dumps (asdict experience) with
  | Ok l => (Ok tt, set_buffer (Some (existing ++ [l])) w)
  | Raise e => (Raise e, set_buffer (Some existing) w)
  end.

Definition collect (state action reward next_state done metadata : pyobj)
    (w : world) : res (ExperienceOf pyobj) * world :=
  let (stamp, w1) := now w in
  let experience :=
    {| state := state;
       action := action;
       reward := reward;
       next_state := next_state;
       done := done;
       metadata := if py_truthy metadata then metadata else PDict [];
       timestamp := of_json stamp |} in
  match _append_to_buffer experience w1 with
  | (Ok _, w2) => (Ok experience, w2)
  | (Raise e, w2) => (Raise e, w2)
  end.

Definition clear (w : world) : world := set_buffer None w.

(** *** [load_experiences] *)

(** [wanted and exp_dict.get('metadata', {}).get(key) != wanted] *)
Definition filter_mismatch (wanted : option string) (key : string)
    (exp_dict : json) : res bool :=
  match wanted with
  | None => Ok false
  | Some t =>
      if String.eqb t "" then Ok false
      else
        md <- py_get exp_dict "metadata" (JObj []) ;;
        v <- py_get md key JNull ;;
        Ok (negb (eq_str v t))
  end.

(** [min_reward and exp_dict.get('reward', 0) < min_reward] *)
Definition below_min_reward (min_reward : option num) (exp_dict : json)
    : res bool :=
  match min_reward with
  | None => Ok false
  | Some m =>
      if num_truthy m then
        r <- py_get exp_dict "reward" (JNum (of_Z 0)) ;;
        x <- as_num r ;;
        Ok (num_ltb x m)
      else Ok false
  end.

Inductive step : Type :=
| Append (e : Experience)
| Continue.

(** The body of the [try] block for one line. *)
Definition load_line (task_type domain : option string)
    (min_reward : option num) (l : line) (w : world) : res (step * world) :=
  exp_dict <- json_loads l ;;
  skip_task <- filter_mismatch task_type "task_type" exp_dict ;;
  if skip_task then Ok (Continue, w) else
  skip_domain <- filter_mismatch domain "domain" exp_dict ;;
  if skip_domain then Ok (Continue, w) else
  skip_reward <- below_min_reward min_reward exp_dict ;;
  if skip_reward then Ok (Continue, w) else
  st <- py_getitem exp_dict "state" ;;
  ac <- py_getitem exp_dict "action" ;;
  rw <- py_getitem exp_dict "reward" ;;
  ns <- py_get exp_dict "next_state" JNull ;;
  dn <- py_getitem exp_dict "done" ;;
  md <- py_get exp_dict "metadata" (JObj []) ;;
  let (stamp, w1) := now w in
  ts <- py_get exp_dict "timestamp" stamp ;;
  Ok (Append {| state := st; action := ac; reward := rw; next_state := ns;
                done := dn; metadata := md; timestamp := ts |}, w1).

(** [limit and len(experiences) >= limit] *)
Definition limit_reached (limit : option Z) (experiences : list Experience)
    : bool :=
  match limit with
  | None => false
  | Some n => negb (n =? 0)%Z && (n <=? Z.of_nat (length experiences))%Z
  end.

(** What the [try] ... [except (JSONDecodeError, KeyError)] statement makes
    of one line: the record is appended, a filter passes it by
    ([continue]), it is skipped with a warning, or the exception is not
    one of the two and leaves the function. *)
Inductive outcome : Type :=
| Loaded (e : Experience) (w : world)
| Filtered (w : world)
| Skipped (e : exn) (w : world)
| Failed (e : exn).

Definition try_line (task_type domain : option string)
    (min_reward : option num) (l : line) (w : world) : outcome :=
  match load_line task_type domain min_reward l w with
  | Ok (Append e, w1) => Loaded e w1
  | Ok (Continue, w1) => Filtered w1
  | Raise JSONDecodeError => Skipped JSONDecodeError (warn JSONDecodeError w)
  | Raise KeyError => Skipped KeyError (warn KeyError w)
  | Raise e => Failed e
  end.

(** The loop over the lines of the file. *)
Fixpoint load_loop (limit : option Z) (task_type domain : option string)
    (min_reward : option num) (lines : list line)
    (experiences : list Experience) (w : world)
    : res (list Experience) * world :=
  match lines with
  | [] => (Ok experiences, w)
  | l :: rest =>
      if limit_reached limit experiences then (Ok experiences, w)
      else
        match try_line task_type domain min_reward l w with
        | Loaded e w1 =>
            load_loop limit task_type domain min_reward rest
              (experiences ++ [e]) w1
        | Filtered w1 =>
            load_loop limit task_type domain min_reward rest experiences w1
        | Skipped _ w1 =>
            load_loop limit task_type domain min_reward rest experiences w1
        | Failed e => (Raise e, w)
        end
  end.

Definition load_experiences (limit : option Z) (task_type domain : option string)
    (min_reward : option num) (w : world) : res (list Experience) * world :=
  match buffer w with
  | None => (Ok [], w)
  | Some lines => load_loop limit task_type domain min_reward lines [] w
  end.

(** *** The reward function *)

Definition parse_time (time_str : json) : res num :=
  match time_str with
  | JStr s =>
      let time_str := py_strip (py_lower s) in
      if contains "min" time_str then
        py_float (py_strip (py_replace "min" "" time_str))
      else if contains "hour" time_str then
        hours <- py_float (py_strip (py_replace "hour" ""
                                       (py_replace "hours" "" time_str))) ;;
        Ok (num_mul hours (of_Z 60))
      else if contains "day" time_str then
        days <- py_float (py_strip (py_replace "day" ""
                                      (py_replace "days" "" time_str))) ;;
        Ok (num_mul (num_mul days (of_Z 8)) (of_Z 60))
      else Ok (of_Z 60)
  | _ => Raise AttributeError
  end.

Definition compute_reward_from_outcome (outcome context : json) : res num :=
  let reward := of_Z 0 in
  (* 1. Success reward *)
  success <- py_get outcome "success" (JBool false) ;;
  let reward :=
    if truthy success then num_add reward (of_Z 100)
    else num_sub reward (of_Z 100) in
  (* 2. Time efficiency *)
  success <- py_get outcome "success" (JBool false) ;;
  reward <-
    (if truthy success then
       text <- py_get context "estimated_time" (JStr "1 hour") ;;
       estimated <- parse_time text ;;
       actual <- py_get outcome "actual_time" (JNum estimated) ;;
       actual <- as_num actual ;;
       ratio <- num_div estimated (py_max actual (of_Z 1)) ;;
       let efficiency := py_min ratio (of_Z 2) in
       Ok (num_add reward (num_mul efficiency (of_Z 20)))
     else Ok reward) ;;
  (* 3. Resource efficiency *)
  used <- py_get outcome "resources_used" (JArr []) ;;
  resources_used <- py_len used ;;
  let resources_used := of_nat resources_used in
  minimum_resources <- py_get outcome "minimum_resources" (JNum resources_used) ;;
  minimum_resources <- as_num minimum_resources ;;
  let reward :=
    if num_leb resources_used minimum_resources then num_add reward (of_Z 10)
    else num_sub reward
           (num_mul (num_sub resources_used minimum_resources) (of_Z 5)) in
  (* 4. Quality metrics *)
  error_count <- py_get outcome "error_count" (JNum (of_Z 0)) ;;
  reward <-
    (if eq_zero error_count then Ok (num_add reward (of_Z 15))
     else
       n <- as_num error_count ;;
       Ok (num_sub reward (num_mul n (of_Z 10)))) ;;
  (* 5. User satisfaction *)
  user_modifications <- py_get outcome "user_modifications" (JNum (of_Z 0)) ;;
  reward <-
    (if eq_zero user_modifications then Ok (num_add reward (of_Z 10))
     else
       n <- as_num user_modifications ;;
       Ok (num_sub reward (num_mul n (of_Z 5)))) ;;
  (* 6. Safety adherence *)
  violations <- py_get outcome "safety_violations" (JBool false) ;;
  let reward :=
    if negb (truthy violations) then num_add reward (of_Z 10)
    else num_sub reward (of_Z 50) in
  (* 7. Confidence bonus *)
  confidence <- py_get context "confidence" (JNum (Fin (1 # 2))) ;;
  confidence <- as_num confidence ;;
  Ok (num_add reward (num_mul confidence (of_Z 5))).

End Collector.

(* ===================================================================== *)
(** ** train.py                                                           *)
(* ===================================================================== *)

Module Train.
Import Py.
Import Collector.
Local Open Scope py_scope.

Definition one : num := of_Z 1.
Definition zero : num := of_Z 0.

(** [[1.0 if v == t else 0.0 for t in vocabulary]] *)
Definition one_hot_of (v : json) (vocabulary : list string) : list num :=
  map (fun t => if eq_str v t then one else zero) vocabulary.

(** [[1.0 if i == idx else 0.0 for i in range(n)]] *)
Definition one_hot_at (idx n : nat) : list num :=
  map (fun i => if Nat.eqb i idx then one else zero) (seq 0 n).

(** [levels.index(v)], when [v in levels]. *)
Fixpoint index_of (v : json) (levels : list string) : option nat :=
  match levels with
  | [] => None
  | t :: rest =>
      if eq_str v t then Some O else option_map S (index_of v rest)
  end.

(** [levels.index(v) if v in levels else default] *)
Definition index_or (v : json) (levels : list string) (default : nat) : nat :=
  match index_of v levels with
  | Some i => i
  | None => default
  end.

(** [[1.0 if s in used else 0.0 for s in vocabulary]] *)
Fixpoint membership (used : json) (vocabulary : list string)
    : res (list num) :=
  match vocabulary with
  | [] => Ok []
  | s :: rest =>
      b <- py_in s used ;;
      bs <- membership used rest ;;
      Ok ((if b then one else zero) :: bs)
  end.

(** [while len(features) < n: features.append(0.0)], by the number of
    rounds left. *)
Fixpoint pad_loop (rounds : nat) (features : list num) : list num :=
  match rounds with
  | O => features
  | S k => pad_loop k (features ++ [zero])
  end.

Definition pad_to (n : nat) (features : list num) : list num :=
  pad_loop (n - length features) features.

(** [np.array(features, dtype=np.float32)]: every entry is cast to single
    precision. *)
Definition np_array_float32 (features : list num) : list num :=
  map to_float32 features.

Definition task_types : list string :=
  ["feature"; "bug"; "refactor"; "test"; "docs"; "review"].
Definition domains : list string :=
  ["frontend"; "backend"; "database"; "security"; "testing"].
Definition complexity_levels : list string := ["simple"; "medium"; "complex"].
Definition risk_levels : list string := ["low"; "medium"; "high"].

(** The minutes computed inline by [extract_state_vector]. *)
Definition inline_minutes (time_str : json) : res num :=
  match time_str with
  | JStr s =>
      if contains "hour" (py_lower s) then
        hours <- py_float (py_strip (py_replace "hour" ""
                                       (py_replace "hours" "" (py_lower s)))) ;;
        Ok (num_mul hours (of_Z 60))
      else if contains "min" (py_lower s) then
        py_float (py_strip (py_replace "min" "" (py_lower s)))
      else Ok (of_Z 60)
  | _ => Raise AttributeError
  end.

Definition extract_state_vector (exp : Experience) : res (list num) :=
  let features := [] in
  (* Task type *)
  task_type <- py_get (metadata exp) "task_type" (JStr "feature") ;;
  let features := features ++ one_hot_of task_type task_types in
  (* Domain *)
  domain <- py_get (metadata exp) "domain" (JStr "backend") ;;
  let features := features ++ one_hot_of domain domains in
  (* Complexity *)
  complexity <- py_get (metadata exp) "complexity" (JStr "medium") ;;
  let idx := index_or complexity complexity_levels 1 in
  let features := features ++ one_hot_at idx 3 in
  (* Risk level *)
  risk <- py_get (metadata exp) "risk_level" (JStr "low") ;;
  let idx := index_or risk risk_levels 0 in
  let features := features ++ one_hot_at idx 3 in
  (* Estimated time *)
  time_str <- py_get (metadata exp) "estimated_time" (JStr "1 hour") ;;
  time_mins <- inline_minutes time_str ;;
  scaled <- num_div time_mins (of_Z 480) ;;
  let features := features ++ [py_min scaled one] in
  (* Padding *)
  let features := pad_to 50 features in
  Ok (np_array_float32 (firstn 50 features)).

Definition all_skills : list string :=
  ["security"; "backend"; "frontend"; "database"; "testing"; "api-design";
   "architecture"; "devops"; "performance"; "code-quality"].
Definition all_agents : list string :=
  ["feature-creator"; "bug-fixer"; "code-refactorer"; "pr-reviewer";
   "security-specialist"].
Definition strategies : list string :=
  ["direct"; "sequential"; "parallel"; "coordinated"].

Definition strs (l : list string) : json := JArr (map JStr l).

Definition extract_action_vector (exp : Experience) : res (list num) :=
  let features := [] in
  (* Skills used *)
  skills_used <- py_get (metadata exp) "skills_used" (JArr []) ;;
  domain <- py_get (metadata exp) "domain" (JStr "") ;;
  let skills_used :=
    if negb (truthy skills_used) && truthy domain then
      if eq_str domain "backend" then strs ["backend"; "api-design"]
      else if eq_str domain "frontend" then strs ["frontend"]
      else if eq_str domain "database" then strs ["database"]
      else if eq_str domain "security" then strs ["security"]
      else skills_used
    else skills_used in
  skill_bits <- membership skills_used all_skills ;;
  let features := features ++ skill_bits in
  (* Agents used *)
  agents_used <- py_get (metadata exp) "agents_used" (JArr []) ;;
  agent_bits <- membership agents_used all_agents ;;
  let features := features ++ agent_bits in
  (* Strategy *)
  strategy <- py_get (metadata exp) "strategy" (JStr "direct") ;;
  let idx := index_or strategy strategies 0 in
  let features := features ++ one_hot_at idx 4 in
  (* Padding *)
  let features := pad_to 30 features in
  Ok (np_array_float32 (firstn 30 features)).

(** *** The train / validation split of [train] *)

(** The bound of a slice: a negative index counts from the end, and the
    result is clamped to the list. *)
Definition slice_index (i : Z) (len : nat) : nat :=
  if (i <? 0)%Z then Z.to_nat (Z.max 0 (i + Z.of_nat len))
  else Z.to_nat (Z.min i (Z.of_nat len)).

(** [l[:stop]] and [l[start:]] *)
Definition slice_to {A : Type} (stop : Z) (l : list A) : list A :=
  firstn (slice_index stop (length l)) l.
Definition slice_from {A : Type} (start : Z) (l : list A) : list A :=
  skipn (slice_index start (length l)) l.

(** [n_val = int(len(experiences) * validation_split)] *)
Definition n_val {A : Type} (experiences : list A) (validation_split : Q) : Z :=
  Qtrunc (inject_Z (Z.of_nat (length experiences)) * validation_split).

(** [(experiences[:-n_val], experiences[-n_val:])] *)
Definition train_val_split {A : Type} (experiences : list A)
    (validation_split : Q) : list A * list A :=
  let n := n_val experiences validation_split in
  (slice_to (- n) experiences, slice_from (- n) experiences).

End Train.

(* ===================================================================== *)
(** ** The reward as the specification words it                           *)
(* ===================================================================== *)

Module RewardSpec.
Import Py.
Import Collector.
Local Open Scope py_scope.

(** Outcome term: +100 if [outcome.success] else -100. *)
Definition outcome_term (outcome : json) : res num :=
  success <- py_get outcome "success" (JBool false) ;;
  Ok (if truthy success then of_Z 100 else of_Z (-100)).

(** Time-efficiency term, only on success:
    [min(estimated / max(actual, 1), 2.0) * 20], where [estimated] is
    [parse_time] of the context's [estimated_time] (default ["1 hour"]) and
    [actual] defaults to [estimated]. *)
Definition time_term (outcome context : json) : res num :=
  success <- py_get outcome "success" (JBool false) ;;
  if truthy success then
    text <- py_get context "estimated_time" (JStr "1 hour") ;;
    estimated <- parse_time text ;;
    actual <- py_get outcome "actual_time" (JNum estimated) ;;
    actual <- as_num actual ;;
    ratio <- num_div estimated (py_max actual (of_Z 1)) ;;
    Ok (num_mul (py_min ratio (of_Z 2)) (of_Z 20))
  else Ok (of_Z 0).

(** Resource term: +10 if the number of resources used is at most the
    minimum (which defaults to the number used), else -5 per excess
    resource. *)
Definition resource_term (outcome : json) : res num :=
  used <- py_get outcome "resources_used" (JArr []) ;;
  used <- py_len used ;;
  minimum <- py_get outcome "minimum_resources" (JNum (of_nat used)) ;;
  minimum <- as_num minimum ;;
  Ok (if num_leb (of_nat used) minimum then of_Z 10
      else num_neg (num_mul (of_Z 5) (num_sub (of_nat used) minimum))).

(** Quality term: +15 if [error_count == 0] else -10 per error. *)
Definition quality_term (outcome : json) : res num :=
  error_count <- py_get outcome "error_count" (JNum (of_Z 0)) ;;
  if eq_zero error_count then Ok (of_Z 15)
  else
    n <- as_num error_count ;;
    Ok (num_neg (num_mul (of_Z 10) n)).

(** User-satisfaction term: +10 if [user_modifications == 0] else -5 per
    modification. *)
Definition user_term (outcome : json) : res num :=
  user_modifications <- py_get outcome "user_modifications" (JNum (of_Z 0)) ;;
  if eq_zero user_modifications then Ok (of_Z 10)
  else
    n <- as_num user_modifications ;;
    Ok (num_neg (num_mul (of_Z 5) n)).

(** Safety term: +10 if there is no safety violation, else -50. *)
Definition safety_term (outcome : json) : res num :=
  violations <- py_get outcome "safety_violations" (JBool false) ;;
  Ok (if truthy violations then of_Z (-50) else of_Z 10).

(** Confidence term: confidence (default 0.5) times 5. *)
Definition confidence_term (context : json) : res num :=
  confidence <- py_get context "confidence" (JNum (Fin (1 # 2))) ;;
  confidence <- as_num confidence ;;
  Ok (num_mul confidence (of_Z 5)).

(** The result is the number [x] (as numbers: 1/2 and 2/4 are the same). *)
Definition yields (r : res num) (x : num) : bool :=
  match r with
  | Ok y => num_eqb y x
  | Raise _ => false
  end.

Definition sum7 (t1 t2 t3 t4 t5 t6 t7 : num) : num :=
  num_add (num_add (num_add (num_add (num_add (num_add t1 t2) t3) t4) t5) t6) t7.

(** The sum of the seven terms, taken in their order. *)
Definition reward_spec (outcome context : json) : res num :=
  t1 <- outcome_term outcome ;;
  t2 <- time_term outcome context ;;
  t3 <- resource_term outcome ;;
  t4 <- quality_term outcome ;;
  t5 <- user_term outcome ;;
  t6 <- safety_term outcome ;;
  t7 <- confidence_term context ;;
  Ok (sum7 t1 t2 t3 t4 t5 t6 t7).

End RewardSpec.

(* ===================================================================== *)
(** ** Vocabulary of the statements                                       *)
(* ===================================================================== *)

Module Text.
Import Py.

Fixpoint has_char (c : ascii) (s : string) : bool :=
  match s with
  | EmptyString => false
  | String x rest => Ascii.eqb x c || has_char c rest
  end.

Fixpoint all_by (f : ascii -> bool) (s : string) : bool :=
  match s with
  | EmptyString => true
  | String c rest => f c && all_by f rest
  end.

Abbreviation all_space := (all_by is_space).

Fixpoint no_space (s : string) : bool :=
  match s with
  | EmptyString => true
  | String c rest => negb (is_space c) && no_space rest
  end.

(** A word that [replace] and [in] look for: non-empty, without
    whitespace. *)
Definition word (p : string) : bool := negb (is_empty p) && no_space p.

(** The characters of the texts [float] accepts. *)
Definition float_char (c : ascii) : bool :=
  is_digit c || has_char c "+-._einfatyn".

End Text.

Module StoreSpec.
Import Py.
Import Collector.
Local Open Scope py_scope.

Definition has_key (k : string) (d : dict) : bool :=
  match lookup k d with Some _ => true | None => false end.

(** The keys [load_experiences] reads with a subscript. *)
Definition required_keys : list string := ["state"; "action"; "reward"; "done"].

Definition has_required (d : dict) : bool :=
  forallb (fun k => has_key k d) required_keys.

(** The arguments of one call of [collect]. *)
Record call : Type := mkCall {
  arg_state : pyobj;
  arg_action : pyobj;
  arg_reward : pyobj;
  arg_next_state : pyobj;
  arg_done : pyobj;
  arg_metadata : pyobj
}.

(** [collect] applied to each call in turn, up to the first that raises,
    and the records it returned. *)
Fixpoint collect_all (calls : list call) (w : world)
    : res (list (ExperienceOf pyobj)) * world :=
  match calls with
  | [] => (Ok [], w)
  | c :: rest =>
      match collect (arg_state c) (arg_action c) (arg_reward c)
                    (arg_next_state c) (arg_done c) (arg_metadata c) w with
      | (Ok e, w1) =>
          match collect_all rest w1 with
          | (Ok es, w2) => (Ok (e :: es), w2)
          | (Raise x, w2) => (Raise x, w2)
          end
      | (Raise x, w1) => (Raise x, w1)
      end
  end.

Definition lines_of (w : world) : list line :=
  match buffer w with Some ls => ls | None => [] end.

(** A record whose [reward] is a number not below [m]. *)
Definition reward_at_least (m : num) (e : Experience) : Prop :=
  exists x, as_num (reward e) = Ok x /\ num_ltb x m = false.

(** Names that are pairwise different. *)
Fixpoint distinct (names : list string) : bool :=
  match names with
  | [] => true
  | n :: rest => negb (existsb (String.eqb n) rest) && distinct rest
  end.

Definition is_str_key (k : key) : bool :=
  match k with KStr _ => true | _ => false end.

(** The objects JSON has as they are: [None], booleans, numbers, strings,
    lists of such objects and dictionaries of such objects under string
    keys. *)
Fixpoint native (x : pyobj) : bool :=
  match x with
  | PNone | PBool _ | PNum _ | PStr _ => true
  | PList items =>
      (fix all (l : list pyobj) : bool :=
         match l with
         | [] => true
         | y :: rest => native y && all rest
         end) items
  | PDict fields =>
      (fix all (l : list (key * pyobj)) : bool :=
         match l with
         | [] => true
         | (k, y) :: rest => is_str_key k && native y && all rest
         end) fields
      && distinct (map (fun kv => key_name (fst kv)) fields)
  | PTuple _ | PSet _ => false
  end.

(** The loops of [decoded] and [native], by name. *)
Definition decoded_items (items : list pyobj) : res (list json) :=
  (fix each (l : list pyobj) : res (list json) :=
     match l with
     | [] => Ok []
     | y :: rest => v <- decoded y ;; vs <- each rest ;; Ok (v :: vs)
     end) items.

Definition decoded_fields (fields : list (key * pyobj))
    : res (list (string * json)) :=
  (fix each (l : list (key * pyobj)) : res (list (string * json)) :=
     match l with
     | [] => Ok []
     | (k, y) :: rest =>
         v <- decoded y ;; ps <- each rest ;; Ok ((key_name k, v) :: ps)
     end) fields.

Definition native_items (items : list pyobj) : bool :=
  (fix all (l : list pyobj) : bool :=
     match l with
     | [] => true
     | y :: rest => native y && all rest
     end) items.

Definition native_fields (fields : list (key * pyobj)) : bool :=
  (fix all (l : list (key * pyobj)) : bool :=
     match l with
     | [] => true
     | (k, y) :: rest => is_str_key k && native y && all rest
     end) fields.

Definition native_call (c : call) : bool :=
  native (arg_state c) && native (arg_action c) && native (arg_reward c)
  && native (arg_next_state c) && native (arg_done c)
  && native (arg_metadata c).

(** The original of a call made when the clock reads [stamp]: the record of
    its arguments, the metadata replaced by [{}] when it is falsy. *)
Definition original (c : call) (stamp : string) : ExperienceOf pyobj :=
  {| state := arg_state c;
     action := arg_action c;
     reward := arg_reward c;
     next_state := arg_next_state c;
     done := arg_done c;
     metadata := if py_truthy (arg_metadata c) then arg_metadata c
                 else PDict [];
     timestamp := PStr stamp |}.

(** The originals of calls made one after the other from the [k]-th reading
    of the clock on. *)
Fixpoint originals (calls : list call) (clock : nat -> string) (k : nat)
    : list (ExperienceOf pyobj) :=
  match calls with
  | [] => []
  | c :: rest => original c (clock k) :: originals rest clock (S k)
  end.

(** A record read back, as Python objects. *)
Definition as_objects (e : Experience) : ExperienceOf pyobj :=
  {| state := of_json (state e);
     action := of_json (action e);
     reward := of_json (reward e);
     next_state := of_json (next_state e);
     done := of_json (done e);
     metadata := of_json (metadata e);
     timestamp := of_json (timestamp e) |}.

(** A line that is not valid JSON, or that holds a dictionary. *)
Definition readable (l : line) : bool :=
  match l with
  | Malformed => true
  | Encoded (JObj _) => true
  | Encoded _ => false
  end.

(** The record of a dictionary that has the four required keys, read when
    the clock gives [stamp]. *)
Definition record_of (d : dict) (stamp : string) : Experience :=
  {| state := get_or JNull "state" d;
     action := get_or JNull "action" d;
     reward := get_or JNull "reward" d;
     next_state := get_or JNull "next_state" d;
     done := get_or JNull "done" d;
     metadata := get_or (JObj []) "metadata" d;
     timestamp := get_or (JStr stamp) "timestamp" d |}.

(** The records of the lines that hold a dictionary with the four required
    keys, in the order of the file; the clock is read once for each. *)
Fixpoint records_of (lines : list line) (clock : nat -> string) (k : nat)
    : list Experience :=
  match lines with
  | [] => []
  | Encoded (JObj d) :: rest =>
      if has_required d
      then record_of d (clock k) :: records_of rest clock (S k)
      else records_of rest clock k
  | _ :: rest => records_of rest clock k
  end.

(** The warnings of the lines that are skipped. *)
Fixpoint skipped_of (lines : list line) : list exn :=
  match lines with
  | [] => []
  | Malformed :: rest => JSONDecodeError :: skipped_of rest
  | Encoded (JObj d) :: rest =>
      if has_required d then skipped_of rest else KeyError :: skipped_of rest
  | _ :: rest => skipped_of rest
  end.

(** Some of the elements of a list, in their order. *)
Inductive subsequence {A : Type} : list A -> list A -> Prop :=
| sub_nil (l : list A) : subsequence [] l
| sub_take (x : A) (a b : list A) :
    subsequence a b -> subsequence (x :: a) (x :: b)
| sub_skip (x : A) (a b : list A) :
    subsequence a b -> subsequence a (x :: b).

(** A line that holds a dictionary with the four required keys. *)
Definition complete (l : line) : bool :=
  match l with
  | Encoded (JObj d) => has_required d
  | _ => false
  end.

End StoreSpec.

Module EncoderSpec.
Import Py.
Import Collector.

(** The values [s in v] accepts on its right. *)
Definition is_container (v : json) : bool :=
  match v with
  | JArr _ | JStr _ | JObj _ => true
  | _ => false
  end.

(** A value that equals no word of the vocabulary. *)
Definition unknown (v : json) (vocabulary : list string) : bool :=
  negb (existsb (eq_str v) vocabulary).

(** [v[start : start + len]] *)
Definition block {A : Type} (start len : nat) (v : list A) : list A :=
  firstn len (skipn start v).

(** The number of entries of a block that are 1. *)
Definition ones (l : list num) : nat :=
  length (filter (fun x => num_eqb x Train.one) l).

(** An entry that is 0.0 or 1.0. *)
Definition is_bit (x : num) : Prop := x = Train.zero \/ x = Train.one.

(** The skills the action vector encodes: those of [skills_used] when it
    is truthy, else those its domain stands for, if any. *)
Definition encoded_skills (d : dict) : json :=
  let skills := get_or (JArr []) "skills_used" d in
  let domain := get_or (JStr "") "domain" d in
  if truthy skills then skills
  else if eq_str domain "backend" then JArr [JStr "backend"; JStr "api-design"]
  else if eq_str domain "frontend" then JArr [JStr "frontend"]
  else if eq_str domain "database" then JArr [JStr "database"]
  else if eq_str domain "security" then JArr [JStr "security"]
  else skills.

(** An experience of which only the metadata matters. *)
Definition with_metadata (fields : dict) : Experience :=
  {| state := JObj []; action := JObj []; reward := JNum (of_Z 0);
     next_state := JNull; done := JBool true; metadata := JObj fields;
     timestamp := JStr "2025-01-01T00:00:00" |}.

End EncoderSpec.

(* ===================================================================== *)
(** ** Results of the exception monad                                     *)
(* ===================================================================== *)

Section Results.
Import Py.

Lemma bind_ok_inv {X Y : Type} (m : res X) (k : X -> res Y) (y : Y) :
  bind m k = Ok y -> exists x, m = Ok x /\ k x = Ok y.
Proof. destruct m as [x|]; cbn; [eauto|discriminate]. Qed.

Lemma Ok_inj {X : Type} (a b : X) : @Ok X a = Ok b -> a = b.
Proof. now intros [= ->]. Qed.

Lemma div_480 (t : num) : exists q, num_div t (of_Z 480) = Ok q.
Proof. destruct t; cbn; eauto. Qed.

End Results.

Ltac bind_inv H :=
  repeat (let a := fresh "a" in
          let E := fresh "E" in
          apply bind_ok_inv in H; destruct H as (a & E & H); cbv beta in H).

(* ===================================================================== *)
(** ** The reward function                                                *)
(* ===================================================================== *)

Section Reward.
Import Py.
Import Collector.
Import RewardSpec.

Lemma Qmult_comm_eq (x y : Q) : (x * y = y * x)%Q.
Proof.
  unfold Qmult. f_equal; [apply Z.mul_comm | apply Pos.mul_comm].
Qed.

Lemma num_mul_comm (a b : num) : num_mul a b = num_mul b a.
Proof.
  destruct a, b; simpl; try reflexivity.
  f_equal. apply Qmult_comm_eq.
Qed.

Lemma num_sub_add_neg (a b : num) : num_sub a b = num_add a (num_neg b).
Proof. destruct a, b; reflexivity. Qed.

Lemma start_success : num_add (of_Z 0) (of_Z 100) = of_Z 100.
Proof. reflexivity. Qed.

Lemma start_failure : num_sub (of_Z 0) (of_Z 100) = of_Z (-100).
Proof. reflexivity. Qed.

Lemma failure_no_time : num_add (of_Z (-100)) (of_Z 0) = of_Z (-100).
Proof. reflexivity. Qed.

Lemma neg_fifty : num_neg (of_Z 50) = of_Z (-50).
Proof. reflexivity. Qed.

(** Case analysis on the innermost call that decides the next step. *)
Ltac step :=
  match goal with
  | |- context [bind ?m _] =>
      lazymatch m with
      | context [bind _ _] => fail
      | context [if _ then _ else _] => fail
      | Ok _ => fail
      | Raise _ => fail
      | _ => destruct m eqn:?
      end
  | |- context [if ?b then _ else _] =>
      lazymatch b with
      | context [bind _ _] => fail
      | context [if _ then _ else _] => fail
      | _ => destruct b eqn:?
      end
  end; cbn [bind].

(** C1. For every outcome and context, [compute_reward_from_outcome] is the
    sum of the seven terms of the specification, taken in order: +100 / -100
    on success; on success only, [min(estimated / max(actual, 1), 2.0) * 20];
    +10 or -5 per excess resource; +15 or -10 per error; +10 or -5 per user
    modification; +10 or -50 on a safety violation; confidence * 5.  Both
    sides raise the same exception when a term cannot be computed (a time
    text that [parse_time] refuses, a value of the wrong type). *)
Theorem compute_reward_is_sum_of_terms (outcome context : json) :
  compute_reward_from_outcome outcome context = reward_spec outcome context.
Proof.
  unfold compute_reward_from_outcome, reward_spec, outcome_term, time_term,
    resource_term, quality_term, user_term, safety_term, confidence_term, sum7.
  rewrite start_success, start_failure.
  destruct outcome as [| | | | |o]; try reflexivity.
  cbn [py_get bind].
  destruct (truthy (get_or (JBool false) "success" o)) eqn:Hs.
  all: cbn [bind].
  all: destruct context as [| | | | |c]; cbn [py_get bind].
  all: repeat step.
  all: try reflexivity.
  all: try discriminate.
  all: rewrite ?failure_no_time, ?num_sub_add_neg, ?neg_fifty,
         ?(num_mul_comm _ (of_Z 5)), ?(num_mul_comm _ (of_Z 10));
       try reflexivity.
  all: try congruence.
Qed.

(** The reward of a successful run with no other information is 167.5;
    with 45 estimated and 30 actual minutes and two errors it is 142.5. *)
Example reward_of_bare_success :
  yields (compute_reward_from_outcome (JObj [("success", JBool true)]) (JObj []))
         (Fin (335 # 2)) = true.
Proof. reflexivity. Qed.

Example reward_with_errors :
  yields (compute_reward_from_outcome
            (JObj [("success", JBool true); ("actual_time", JNum (of_Z 30));
                   ("error_count", JNum (of_Z 2))])
            (JObj [("estimated_time", JStr "45 min")]))
         (Fin (285 # 2)) = true.
Proof. reflexivity. Qed.

End Reward.

(* ===================================================================== *)
(** ** The train / validation split                                       *)
(* ===================================================================== *)

Section Split.
Import Py.
Import Train.
Context {A : Type}.

(** With [n_val = 0] the slice [experiences[:-0]] is [experiences[:0]]:
    the training part is empty and the validation part is the whole list. *)
Lemma train_val_split_zero (l : list A) (f : Q) :
  n_val l f = 0%Z -> train_val_split l f = ([], l).
Proof.
  intros H. unfold train_val_split, slice_to, slice_from, slice_index.
  rewrite H. cbn [Z.opp Z.ltb Z.compare].
  replace (Z.to_nat (Z.min 0 (Z.of_nat (length l)))) with 0%nat by lia.
  reflexivity.
Qed.

(** With [0 < n_val <= len] the split is the prefix of the first
    [len - n_val] elements and the suffix of the last [n_val]. *)
Lemma train_val_split_positive (l : list A) (f : Q) :
  (0 < n_val l f <= Z.of_nat (length l))%Z ->
  train_val_split l f =
    (firstn (length l - Z.to_nat (n_val l f)) l,
     skipn (length l - Z.to_nat (n_val l f)) l).
Proof.
  intros H. unfold train_val_split, slice_to, slice_from, slice_index.
  destruct (Z.ltb_spec (- n_val l f) 0); [|lia].
  replace (Z.to_nat (Z.max 0 (- n_val l f + Z.of_nat (length l))))
    with (length l - Z.to_nat (n_val l f))%nat by lia.
  reflexivity.
Qed.

(** C6, at the failing input.  Four experiences and the default validation
    fraction 0.2 give [n_val = int(0.8) = 0]: the training part is empty and
    the validation part holds all four, where the claim has a training
    prefix of four and an empty validation suffix. *)
Theorem train_val_split_of_four (a b c d : A) :
  train_val_split [a; b; c; d] (1 # 5) = ([], [a; b; c; d]).
Proof. reflexivity. Qed.

(** Ten experiences at 0.2 are split 8 / 2, as the claim says. *)
Example train_val_split_of_ten :
  train_val_split (seq 1 10) (1 # 5) = (seq 1 8, seq 9 2).
Proof. reflexivity. Qed.

End Split.

(* ===================================================================== *)
(** ** The experience store                                               *)
(* ===================================================================== *)

Section Store.
Import Py.
Import Collector.
Import StoreSpec.
Local Open Scope nat_scope.

(** *** Exceptions of the pieces of [load_line] *)

Lemma py_get_raises (v : json) (k : string) (default : json) (e : exn) :
  py_get v k default = Raise e -> e = AttributeError.
Proof. destruct v; cbn; congruence. Qed.

Lemma filter_mismatch_raises (wanted : option string) (k : string)
    (v : json) (e : exn) :
  filter_mismatch wanted k v = Raise e -> e = AttributeError.
Proof.
  unfold filter_mismatch. destruct wanted as [t|]; [|discriminate].
  destruct (String.eqb t ""); [discriminate|].
  destruct (py_get v "metadata" (JObj [])) as [md|x] eqn:E1; cbn [bind].
  - destruct (py_get md k JNull) as [y|x] eqn:E2; cbn [bind]; [discriminate|].
    intros [= <-]. eapply py_get_raises; eauto.
  - intros [= <-]. eapply py_get_raises; eauto.
Qed.

Lemma below_min_reward_raises (m : option num) (v : json) (e : exn) :
  below_min_reward m v = Raise e -> e = AttributeError \/ e = TypeError.
Proof.
  unfold below_min_reward. destruct m as [m|]; [|discriminate].
  destruct (num_truthy m); [|discriminate].
  destruct (py_get v "reward" (JNum (of_Z 0))) as [r|x] eqn:E1; cbn [bind].
  - destruct r; cbn; try discriminate; intros [= <-]; now right.
  - intros [= <-]. left. eapply py_get_raises; eauto.
Qed.

Lemma py_getitem_raises (v : json) (k : string) (e : exn) :
  py_getitem v k = Raise e ->
  e = TypeError \/ (e = KeyError /\ exists d, v = JObj d /\ has_key k d = false).
Proof.
  unfold py_getitem, has_key.
  destruct v as [| | | | |d]; try (intros [= <-]; now left).
  destruct (lookup k d) eqn:E; [discriminate|]. intros [= <-]. right.
  split; [reflexivity|]. exists d. now rewrite E.
Qed.

Lemma get_required (k : string) (d : dict) :
  has_key k d = true -> py_getitem (JObj d) k = Ok (get_or JNull k d).
Proof.
  unfold has_key, py_getitem, get_or.
  destruct (lookup k d); [reflexivity|discriminate].
Qed.

Lemma get_missing (k : string) (d : dict) :
  has_key k d = false -> py_getitem (JObj d) k = Raise KeyError.
Proof.
  unfold has_key, py_getitem. destruct (lookup k d); [discriminate|reflexivity].
Qed.

Lemma has_required_spec (d : dict) :
  has_required d = true <->
  has_key "state" d = true /\ has_key "action" d = true
  /\ has_key "reward" d = true /\ has_key "done" d = true.
Proof.
  unfold has_required. cbn [forallb required_keys].
  rewrite !andb_true_iff. tauto.
Qed.

Lemma missing_key_not_required (k : string) (d : dict) :
  In k required_keys -> has_key k d = false -> has_required d = false.
Proof.
  intros Hin Hk. destruct (has_required d) eqn:E; [|reflexivity].
  unfold has_required in E. rewrite forallb_forall in E.
  rewrite (E k Hin) in Hk. discriminate.
Qed.

(** *** One line *)

(** Without filters a dictionary with the four required keys is loaded. *)
Lemma load_line_complete (d : dict) (w : world) :
  has_required d = true ->
  load_line None None None (Encoded (JObj d)) w
  = Ok (Append {| state := get_or JNull "state" d;
                  action := get_or JNull "action" d;
                  reward := get_or JNull "reward" d;
                  next_state := get_or JNull "next_state" d;
                  done := get_or JNull "done" d;
                  metadata := get_or (JObj []) "metadata" d;
                  timestamp := get_or (JStr (clock w (ticks w))) "timestamp" d |},
        snd (now w)).
Proof.
  intros H. apply has_required_spec in H. destruct H as (Hs & Ha & Hr & Hd).
  unfold load_line. cbn [json_loads filter_mismatch below_min_reward bind].
  rewrite (get_required _ _ Hs), (get_required _ _ Ha), (get_required _ _ Hr),
    (get_required _ _ Hd).
  reflexivity.
Qed.

(** Without filters a dictionary that lacks a required key raises
    [KeyError]. *)
Lemma load_line_incomplete (d : dict) (w : world) :
  has_required d = false ->
  load_line None None None (Encoded (JObj d)) w = Raise KeyError.
Proof.
  intros H. unfold load_line.
  cbn [json_loads filter_mismatch below_min_reward bind].
  destruct (has_key "state" d) eqn:Hs;
    [rewrite (get_required _ _ Hs)|now rewrite (get_missing _ _ Hs)].
  destruct (has_key "action" d) eqn:Ha;
    [rewrite (get_required _ _ Ha)|now rewrite (get_missing _ _ Ha)].
  destruct (has_key "reward" d) eqn:Hr;
    [rewrite (get_required _ _ Hr)|now rewrite (get_missing _ _ Hr)].
  destruct (has_key "done" d) eqn:Hd;
    [|cbn [bind py_get]; now rewrite (get_missing _ _ Hd)].
  assert (has_required d = true) by (apply has_required_spec; tauto).
  congruence.
Qed.

(** Whatever the filters, [JSONDecodeError] comes from a line that does not
    decode and [KeyError] from a dictionary that lacks a required key. *)
Lemma load_line_caught tt dm mr (l : line) (w : world) (e : exn) :
  load_line tt dm mr l w = Raise e ->
  (e = JSONDecodeError -> l = Malformed)
  /\ (e = KeyError -> exists d, l = Encoded (JObj d) /\ has_required d = false).
Proof.
  intros H. destruct l as [v|];
    [|injection H as <-; split; [reflexivity|discriminate]].
  unfold load_line in H. cbn [json_loads bind] in H.
  assert (Hget : forall k,
             In k required_keys -> py_getitem v k = Raise e ->
             (e = JSONDecodeError -> Encoded v = Malformed)
             /\ (e = KeyError ->
                 exists d, Encoded v = Encoded (JObj d)
                           /\ has_required d = false)).
  { intros k Hin Hk. apply py_getitem_raises in Hk.
    destruct Hk as [->|[-> (d & -> & Hd)]]; split; try discriminate.
    intros _. exists d. split; [reflexivity|].
    eapply missing_key_not_required; eauto. }
  assert (Hattr : e = AttributeError ->
             (e = JSONDecodeError -> Encoded v = Malformed)
             /\ (e = KeyError ->
                 exists d, Encoded v = Encoded (JObj d)
                           /\ has_required d = false)).
  { intros ->. split; discriminate. }
  destruct (filter_mismatch tt "task_type" v) as [[|]|x] eqn:F1;
    cbn [bind] in H;
    [discriminate|
    |injection H as <-; apply Hattr; eapply filter_mismatch_raises; eauto].
  destruct (filter_mismatch dm "domain" v) as [[|]|x] eqn:F2;
    cbn [bind] in H;
    [discriminate|
    |injection H as <-; apply Hattr; eapply filter_mismatch_raises; eauto].
  destruct (below_min_reward mr v) as [[|]|x] eqn:F3; cbn [bind] in H;
    [discriminate| |].
  2:{ injection H as <-. apply below_min_reward_raises in F3.
      destruct F3 as [->| ->]; split; discriminate. }
  destruct (py_getitem v "state") as [st|x] eqn:G1; cbn [bind] in H;
    [|injection H as <-; apply (Hget "state"); cbn; auto].
  destruct (py_getitem v "action") as [ac|x] eqn:G2; cbn [bind] in H;
    [|injection H as <-; apply (Hget "action"); cbn; auto].
  destruct (py_getitem v "reward") as [rw|x] eqn:G3; cbn [bind] in H;
    [|injection H as <-; apply (Hget "reward"); cbn; auto].
  destruct (py_get v "next_state" JNull) as [ns|x] eqn:G4; cbn [bind] in H;
    [|injection H as <-; apply Hattr; eapply py_get_raises; eauto].
  destruct (py_getitem v "done") as [dn|x] eqn:G5; cbn [bind] in H;
    [|injection H as <-; apply (Hget "done"); cbn; auto].
  destruct (py_get v "metadata" (JObj [])) as [md|x] eqn:G6; cbn [bind] in H;
    [|injection H as <-; apply Hattr; eapply py_get_raises; eauto].
  cbn [now] in H.
  destruct (py_get v "timestamp" (JStr (clock w (ticks w)))) as [ts|x] eqn:G7;
    cbn [bind] in H; [discriminate|].
  injection H as <-. apply Hattr. eapply py_get_raises; eauto.
Qed.

(** What one line makes of the world: nothing but a reading of the
    clock. *)
Lemma load_line_world tt dm mr (x : line) (w w1 : world) (s : step) :
  load_line tt dm mr x w = Ok (s, w1) ->
  buffer w1 = buffer w /\ clock w1 = clock w /\ warnings w1 = warnings w
  /\ ticks w <= ticks w1.
Proof.
  unfold load_line. intros H.
  destruct (json_loads x) as [v|]; cbn [bind] in H; [|discriminate].
  destruct (filter_mismatch tt "task_type" v) as [[|]|]; cbn [bind] in H;
    try discriminate; [injection H as _ <-; auto|].
  destruct (filter_mismatch dm "domain" v) as [[|]|]; cbn [bind] in H;
    try discriminate; [injection H as _ <-; auto|].
  destruct (below_min_reward mr v) as [[|]|]; cbn [bind] in H;
    try discriminate; [injection H as _ <-; auto|].
  destruct (py_getitem v "state"); cbn [bind] in H; [|discriminate].
  destruct (py_getitem v "action"); cbn [bind] in H; [|discriminate].
  destruct (py_getitem v "reward"); cbn [bind] in H; [|discriminate].
  destruct (py_get v "next_state" JNull); cbn [bind] in H; [|discriminate].
  destruct (py_getitem v "done"); cbn [bind] in H; [|discriminate].
  destruct (py_get v "metadata" (JObj [])); cbn [bind] in H; [|discriminate].
  cbn [now] in H.
  destruct (py_get v "timestamp" _); cbn [bind] in H; [|discriminate].
  injection H as _ <-. cbn. auto.
Qed.

(** Without filters, a line that holds a dictionary with the four required
    keys is loaded, with the defaults of the three other keys. *)
Lemma try_line_complete (d : dict) (w : world) :
  has_required d = true ->
  try_line None None None (Encoded (JObj d)) w
  = Loaded (record_of d (clock w (ticks w))) (snd (now w)).
Proof.
  intros H. unfold try_line. now rewrite load_line_complete.
Qed.

Lemma try_line_incomplete (d : dict) (w : world) :
  has_required d = false ->
  try_line None None None (Encoded (JObj d)) w
  = Skipped KeyError (warn KeyError w).
Proof.
  intros H. unfold try_line. now rewrite load_line_incomplete.
Qed.

(** The loop without filters, on lines that are malformed or hold a
    dictionary. *)
Lemma load_loop_records (lines : list line) :
  forallb readable lines = true ->
  forall acc w,
    load_loop None None None None lines acc w
    = (Ok (acc ++ records_of lines (clock w) (ticks w)),
       {| buffer := buffer w; clock := clock w;
          ticks := ticks w + length (records_of lines (clock w) (ticks w));
          warnings := warnings w ++ skipped_of lines |}).
Proof.
  induction lines as [|l rest IH]; intros Hr acc w.
  - cbn. rewrite !app_nil_r, Nat.add_0_r. now destruct w.
  - cbn [forallb] in Hr. apply andb_true_iff in Hr. destruct Hr as [Hl Hr].
    specialize (IH Hr). cbn [load_loop limit_reached].
    destruct l as [v|].
    + destruct v as [| | | | |d]; try discriminate Hl.
      cbn [records_of skipped_of].
      destruct (has_required d) eqn:Hd.
      * rewrite (try_line_complete d w Hd), IH. cbn [now snd clock ticks
          buffer warnings length].
        rewrite <- app_assoc. cbn [app]. f_equal. f_equal. lia.
      * rewrite (try_line_incomplete d w Hd), IH.
        cbn [warn clock ticks buffer warnings].
        rewrite <- app_assoc. reflexivity.
    + cbn [records_of skipped_of]. unfold try_line at 1.
      cbn [load_line json_loads bind]. rewrite IH.
      cbn [warn clock ticks buffer warnings].
      rewrite <- app_assoc. reflexivity.
Qed.

(** Whatever the filters and the limit, lines that hold a dictionary with
    the four required keys are never skipped: no warning is printed. *)
Lemma load_loop_complete limit tt dm mr (lines : list line) :
  forallb complete lines = true ->
  forall acc w,
    warnings (snd (load_loop limit tt dm mr lines acc w)) = warnings w.
Proof.
  induction lines as [|l rest IH]; intros Hc acc w; [reflexivity|].
  cbn [forallb] in Hc. apply andb_true_iff in Hc. destruct Hc as [Hl Hc].
  specialize (IH Hc). cbn [load_loop].
  destruct (limit_reached limit acc); [reflexivity|].
  unfold try_line.
  destruct (load_line tt dm mr l w) as [[[e|] w1]|x] eqn:E.
  - rewrite IH. now destruct (load_line_world _ _ _ _ _ _ _ E) as (_ & _ & H & _).
  - rewrite IH. now destruct (load_line_world _ _ _ _ _ _ _ E) as (_ & _ & H & _).
  - destruct (load_line_caught _ _ _ _ _ _ E) as [Hj Hk].
    destruct x; try reflexivity.
    + destruct (Hk eq_refl) as (d & -> & Hd). unfold complete in Hl.
      congruence.
    + rewrite (Hj eq_refl) in Hl. discriminate Hl.
Qed.

Lemma subsequence_skipped_cons (l : line) (rest : list line)
    (printed : list exn) :
  subsequence printed (skipped_of rest) ->
  subsequence printed (skipped_of (l :: rest)).
Proof.
  intros H. destruct l as [v|]; cbn [skipped_of].
  - destruct v as [| | | | |d]; try exact H.
    destruct (has_required d); [exact H|now apply sub_skip].
  - now apply sub_skip.
Qed.

(** Whatever the filters and the limit, the warnings printed are those of
    some of the invalid lines, in the order of the file. *)
Lemma load_loop_printed limit tt dm mr (lines : list line) :
  forall acc w,
    exists printed,
      warnings (snd (load_loop limit tt dm mr lines acc w))
      = warnings w ++ printed
      /\ subsequence printed (skipped_of lines).
Proof.
  induction lines as [|l rest IH]; intros acc w.
  - exists []. cbn. rewrite app_nil_r. split; [reflexivity|constructor].
  - cbn [load_loop].
    destruct (limit_reached limit acc).
    { exists []. cbn. rewrite app_nil_r. split; [reflexivity|constructor]. }
    unfold try_line.
    destruct (load_line tt dm mr l w) as [[[e|] w1]|x] eqn:E.
    + destruct (IH (acc ++ [e]) w1) as (printed & Hp & Hs).
      destruct (load_line_world _ _ _ _ _ _ _ E) as (_ & _ & Hw & _).
      exists printed. rewrite Hp, Hw.
      split; [reflexivity|now apply subsequence_skipped_cons].
    + destruct (IH acc w1) as (printed & Hp & Hs).
      destruct (load_line_world _ _ _ _ _ _ _ E) as (_ & _ & Hw & _).
      exists printed. rewrite Hp, Hw.
      split; [reflexivity|now apply subsequence_skipped_cons].
    + destruct (load_line_caught _ _ _ _ _ _ E) as [Hj Hk].
      destruct x;
        try (exists []; cbn; rewrite app_nil_r;
             split; [reflexivity|constructor]).
      * destruct (Hk eq_refl) as (d & -> & Hd).
        destruct (IH acc (warn KeyError w)) as (printed & Hp & Hs).
        exists (KeyError :: printed). rewrite Hp. cbn [warn warnings].
        rewrite <- app_assoc. split; [reflexivity|].
        cbn [skipped_of]. rewrite Hd. now apply sub_take.
      * rewrite (Hj eq_refl).
        destruct (IH acc (warn JSONDecodeError w)) as (printed & Hp & Hs).
        exists (JSONDecodeError :: printed). rewrite Hp. cbn [warn warnings].
        rewrite <- app_assoc. split; [reflexivity|].
        cbn [skipped_of]. now apply sub_take.
Qed.

(** C10.  On a buffer whose lines are malformed or hold a dictionary, a load
    without filters returns, in the order of the file, the record of every
    line that holds a dictionary with [state], [action], [reward] and [done]:
    its [next_state] defaults to null, its [metadata] to the empty mapping
    and its [timestamp] to the reading of the clock at load time.  The lines
    passed over with a warning are exactly the malformed ones
    ([JSONDecodeError]) and the dictionaries that lack one of the four keys
    ([KeyError]).  Whatever the filters and the limit, the warnings printed
    are those of some of these invalid lines, in the order of the file, and
    a buffer of dictionaries with the four keys gives no warning: none of
    its lines is skipped. *)
Theorem load_skips_only_invalid_lines (lines : list line) (w : world)
    (Hbuffer : buffer w = Some lines)
    (Hreadable : forallb readable lines = true) :
  load_experiences None None None None w
  = (Ok (records_of lines (clock w) (ticks w)),
     {| buffer := buffer w; clock := clock w;
        ticks := ticks w + length (records_of lines (clock w) (ticks w));
        warnings := warnings w ++ skipped_of lines |})
  /\ (forall limit task_type domain min_reward,
        exists printed,
          warnings (snd (load_experiences limit task_type domain min_reward w))
          = warnings w ++ printed
          /\ subsequence printed (skipped_of lines))
  /\ (forall limit task_type domain min_reward,
        forallb complete lines = true ->
        warnings (snd (load_experiences limit task_type domain min_reward w))
        = warnings w).
Proof.
  unfold load_experiences. rewrite Hbuffer. split; [|split].
  - rewrite (load_loop_records lines Hreadable [] w). now rewrite Hbuffer.
  - intros limit tt dm mr. apply load_loop_printed.
  - intros limit tt dm mr Hc. now apply load_loop_complete.
Qed.

(** C10, witness: a file of three lines, one that does not decode, one with
    the four required keys only, one without [done].  The second is the only
    record returned, and two warnings are printed. *)
Lemma load_skips_witness :
  load_experiences None None None None
    (mkWorld (Some [ Malformed;
                     Encoded (JObj [("state", JObj []); ("action", JObj []);
                                    ("reward", JNum (of_Z 7));
                                    ("done", JBool true)]);
                     Encoded (JObj [("state", JObj []); ("action", JObj []);
                                    ("reward", JNum (of_Z 7))]) ])
             (fun _ => "2025-01-01T00:00:00") 0 [])
  = (Ok [ {| state := JObj []; action := JObj []; reward := JNum (of_Z 7);
             next_state := JNull; done := JBool true; metadata := JObj [];
             timestamp := JStr "2025-01-01T00:00:00" |} ],
     mkWorld (Some [ Malformed;
                     Encoded (JObj [("state", JObj []); ("action", JObj []);
                                    ("reward", JNum (of_Z 7));
                                    ("done", JBool true)]);
                     Encoded (JObj [("state", JObj []); ("action", JObj []);
                                    ("reward", JNum (of_Z 7))]) ])
             (fun _ => "2025-01-01T00:00:00") 1 [JSONDecodeError; KeyError]).
Proof.
  apply (load_skips_only_invalid_lines
           [ Malformed;
             Encoded (JObj [("state", JObj []); ("action", JObj []);
                            ("reward", JNum (of_Z 7)); ("done", JBool true)]);
             Encoded (JObj [("state", JObj []); ("action", JObj []);
                            ("reward", JNum (of_Z 7))]) ]
           (mkWorld (Some [ Malformed;
                            Encoded (JObj [("state", JObj []);
                                           ("action", JObj []);
                                           ("reward", JNum (of_Z 7));
                                           ("done", JBool true)]);
                            Encoded (JObj [("state", JObj []);
                                           ("action", JObj []);
                                           ("reward", JNum (of_Z 7))]) ])
                    (fun _ => "2025-01-01T00:00:00") 0 [])
           eq_refl eq_refl).
Defined.

(** Without filters, the two kinds of invalid line are indeed skipped. *)
Lemma try_line_invalid (l : line) (w : world) :
  l = Malformed \/ (exists d, l = Encoded (JObj d) /\ has_required d = false) ->
  exists e, try_line None None None l w = Skipped e (warn e w).
Proof.
  intros [->|(d & -> & H)]; unfold try_line.
  - exists JSONDecodeError. reflexivity.
  - exists KeyError. now rewrite load_line_incomplete.
Qed.

(** A file of three lines: one that does not decode, one with the four
    required keys only, one without [done].  The second is the only record
    returned, and two warnings are printed. *)
Example load_three_lines (c : nat -> string) :
  load_experiences None None None None
    (mkWorld (Some [ Malformed;
                     Encoded (JObj [("state", JObj []); ("action", JObj []);
                                    ("reward", JNum (of_Z 7));
                                    ("done", JBool true)]);
                     Encoded (JObj [("state", JObj []); ("action", JObj []);
                                    ("reward", JNum (of_Z 7))]) ])
             c 0 [])
  = (Ok [ {| state := JObj []; action := JObj []; reward := JNum (of_Z 7);
             next_state := JNull; done := JBool true; metadata := JObj [];
             timestamp := JStr (c 0) |} ],
     mkWorld (Some [ Malformed;
                     Encoded (JObj [("state", JObj []); ("action", JObj []);
                                    ("reward", JNum (of_Z 7));
                                    ("done", JBool true)]);
                     Encoded (JObj [("state", JObj []); ("action", JObj []);
                                    ("reward", JNum (of_Z 7))]) ])
             c 1 [JSONDecodeError; KeyError]).
Proof. reflexivity. Qed.

(** *** The threshold *)

Lemma load_line_zero_threshold tt dm (l : line) (w : world) :
  load_line tt dm (Some (of_Z 0)) l w = load_line tt dm None l w.
Proof. reflexivity. Qed.

Lemma load_loop_zero_threshold limit tt dm (lines : list line) :
  forall exps w,
    load_loop limit tt dm (Some (of_Z 0)) lines exps w
    = load_loop limit tt dm None lines exps w.
Proof.
  induction lines as [|l rest IH]; intros exps w; [reflexivity|].
  cbn [load_loop]. unfold try_line. rewrite load_line_zero_threshold.
  destruct (limit_reached limit exps); [reflexivity|].
  destruct (load_line tt dm None l w) as [[[e|] w1]|e]; try apply IH.
  destruct e; try reflexivity; apply IH.
Qed.

(** A threshold of zero is no threshold: [min_reward and ...] is false. *)
Lemma load_zero_threshold_is_unfiltered limit tt dm (w : world) :
  load_experiences limit tt dm (Some (of_Z 0)) w
  = load_experiences limit tt dm None w.
Proof.
  unfold load_experiences. destruct (buffer w); [|reflexivity].
  apply load_loop_zero_threshold.
Qed.

(** C4, at the failing input.  With [min_reward = 0] a stored record whose
    reward is -5 is returned, although -5 is below the threshold. *)
Theorem load_min_reward_zero_keeps_negative
    (st ac ns dn md ts : json) (c : nat -> string) (k : nat) :
  let e := mkExperience st ac (JNum (of_Z (-5))) ns dn md ts in
  fst (load_experiences None None None (Some (of_Z 0))
         (mkWorld (Some [to_json e]) c k []))
  = Ok [e].
Proof. reflexivity. Qed.

(** A line loaded under a threshold that is not zero has a reward that is
    not below it. *)
Lemma try_line_reward tt dm (m : num) (l : line) (w w1 : world)
    (e : Experience) :
  num_truthy m = true ->
  try_line tt dm (Some m) l w = Loaded e w1 -> reward_at_least m e.
Proof.
  intros Hm H. unfold try_line in H.
  destruct (load_line tt dm (Some m) l w) as [[[x|] w2]|x] eqn:E;
    try discriminate; [|destruct x; discriminate].
  injection H as -> ->. unfold load_line in E.
  destruct (json_loads l) as [v|]; cbn [bind] in E; [|discriminate].
  destruct (filter_mismatch tt "task_type" v) as [[|]|]; cbn [bind] in E;
    try discriminate.
  destruct (filter_mismatch dm "domain" v) as [[|]|]; cbn [bind] in E;
    try discriminate.
  destruct (below_min_reward (Some m) v) as [[|]|] eqn:F; cbn [bind] in E;
    try discriminate.
  destruct (py_getitem v "state") as [st|]; cbn [bind] in E; [|discriminate].
  destruct (py_getitem v "action") as [ac|]; cbn [bind] in E; [|discriminate].
  destruct (py_getitem v "reward") as [rw|] eqn:G; cbn [bind] in E;
    [|discriminate].
  destruct (py_get v "next_state" JNull) as [ns|]; cbn [bind] in E;
    [|discriminate].
  destruct (py_getitem v "done") as [dn|]; cbn [bind] in E; [|discriminate].
  destruct (py_get v "metadata" (JObj [])) as [md|]; cbn [bind] in E;
    [|discriminate].
  cbn [now] in E.
  destruct (py_get v "timestamp" _) as [ts|]; cbn [bind] in E; [|discriminate].
  injection E as <- _. unfold reward_at_least. cbn [reward].
  unfold below_min_reward in F. rewrite Hm in F.
  destruct v as [| | | | |d]; try discriminate G.
  cbn [py_get bind] in F. unfold py_getitem in G. unfold get_or in F.
  destruct (lookup "reward" d) as [r|]; [|discriminate G].
  injection G as ->.
  destruct (as_num rw) as [x|]; cbn [bind] in F; [|discriminate].
  exists x. split; [reflexivity|]. now injection F.
Qed.

Lemma load_loop_reward limit tt dm (m : num) (lines : list line) :
  num_truthy m = true ->
  forall acc w result w1,
    load_loop limit tt dm (Some m) lines acc w = (Ok result, w1) ->
    Forall (reward_at_least m) acc -> Forall (reward_at_least m) result.
Proof.
  intros Hm. induction lines as [|l rest IH]; intros acc w result w1 H Hacc;
    cbn [load_loop] in H.
  - now injection H as <- _.
  - destruct (limit_reached limit acc); [now injection H as <- _|].
    destruct (try_line tt dm (Some m) l w) as [e w2|w2|x w2|x] eqn:E.
    + apply (IH _ _ _ _ H). apply Forall_app. split; [exact Hacc|].
      constructor; [|constructor]. eapply try_line_reward; eauto.
    + now apply (IH _ _ _ _ H).
    + now apply (IH _ _ _ _ H).
    + discriminate H.
Qed.

(** For a threshold other than zero the filter is as the specification
    words it: every record returned has a reward that is not below it. *)
Lemma load_min_reward_nonzero limit tt dm (m : num) (w w1 : world)
    (result : list Experience) :
  num_truthy m = true ->
  load_experiences limit tt dm (Some m) w = (Ok result, w1) ->
  Forall (reward_at_least m) result.
Proof.
  intros Hm H. unfold load_experiences in H. destruct (buffer w) as [lines|].
  - eapply load_loop_reward; eauto.
  - injection H as <- _. constructor.
Qed.

(** *** Round trip *)

Lemma load_line_encoded (e : Experience) (w : world) :
  load_line None None None (to_json e) w = Ok (Append e, snd (now w)).
Proof. destruct e; reflexivity. Qed.

Lemma try_line_encoded (e : Experience) (w : world) :
  try_line None None None (to_json e) w = Loaded e (snd (now w)).
Proof. unfold try_line. rewrite load_line_encoded. reflexivity. Qed.

Lemma load_loop_encoded (es : list Experience) :
  forall acc w,
    fst (load_loop None None None None (map to_json es) acc w) = Ok (acc ++ es).
Proof.
  induction es as [|e es IH]; intros acc w; cbn [map load_loop].
  - now rewrite app_nil_r.
  - cbn [limit_reached]. rewrite try_line_encoded, IH, <- app_assoc.
    reflexivity.
Qed.

Lemma load_experiences_lines (w : world) :
  load_experiences None None None None w
  = load_loop None None None None (lines_of w) [] w.
Proof.
  unfold load_experiences, lines_of. destruct (buffer w); reflexivity.
Qed.

(** *** What [json.dumps] writes *)

Lemma pyobj_nested_ind (P : pyobj -> Prop) :
  P PNone -> (forall b, P (PBool b)) -> (forall x, P (PNum x)) ->
  (forall s, P (PStr s)) ->
  (forall items, Forall P items -> P (PList items)) ->
  (forall items, Forall P items -> P (PTuple items)) ->
  (forall fields, Forall (fun kv => P (snd kv)) fields -> P (PDict fields)) ->
  (forall items, Forall P items -> P (PSet items)) ->
  forall x, P x.
Proof.
  intros HNone HBool HNum HStr HList HTuple HDict HSet.
  fix IH 1. intros [|b|x|s|items|items|fields|items].
  - exact HNone.
  - apply HBool.
  - apply HNum.
  - apply HStr.
  - apply HList.
    induction items as [|y rest IHl]; constructor; [apply IH|exact IHl].
  - apply HTuple.
    induction items as [|y rest IHl]; constructor; [apply IH|exact IHl].
  - apply HDict.
    induction fields as [|[k y] rest IHl]; constructor; [|exact IHl].
    cbn [snd]. apply IH.
  - apply HSet.
    induction items as [|y rest IHl]; constructor; [apply IH|exact IHl].
Qed.

Lemma set_field_fresh (k : string) (v : json) (d : dict) :
  existsb (String.eqb k) (map fst d) = false ->
  set_field k v d = d ++ [(k, v)].
Proof.
  induction d as [|[k' v'] rest IH]; cbn [set_field map fst existsb app].
  - reflexivity.
  - intros H. apply orb_false_elim in H. destruct H as [-> H].
    now rewrite IH.
Qed.

Lemma existsb_app_names (k : string) (a b : list string) :
  existsb (String.eqb k) (a ++ b)
  = existsb (String.eqb k) a || existsb (String.eqb k) b.
Proof. apply existsb_app. Qed.

Lemma fold_set_field_distinct (pairs : list (string * json)) :
  distinct (map fst pairs) = true ->
  forall acc,
    (forall k, In k (map fst pairs) ->
               existsb (String.eqb k) (map fst acc) = false) ->
    fold_left (fun d kv => set_field (fst kv) (snd kv) d) pairs acc
    = acc ++ pairs.
Proof.
  induction pairs as [|[k v] rest IH]; intros Hd acc Hfresh; cbn [fold_left].
  - now rewrite app_nil_r.
  - cbn [map fst distinct] in Hd. apply andb_true_iff in Hd.
    destruct Hd as [Hk Hd]. apply negb_true_iff in Hk.
    cbn [fst snd]. rewrite set_field_fresh by (apply Hfresh; now left).
    rewrite IH; [now rewrite <- app_assoc|exact Hd|].
    intros k' Hin. rewrite map_app, existsb_app_names. cbn [map fst existsb].
    rewrite (Hfresh k') by now right.
    rewrite orb_false_r. cbn [orb].
    destruct (String.eqb k' k) eqn:E; [|reflexivity].
    apply String.eqb_eq in E. subst k'.
    assert (existsb (String.eqb k) (map fst rest) = true)
      by (apply existsb_exists; exists k; split;
          [exact Hin|apply String.eqb_refl]).
    congruence.
Qed.

(** Members whose names are pairwise different are read back as they were
    written. *)
Lemma dict_of_pairs_distinct (pairs : list (string * json)) :
  distinct (map fst pairs) = true -> dict_of_pairs pairs = pairs.
Proof.
  intros H. unfold dict_of_pairs.
  now rewrite fold_set_field_distinct by (auto; intros; reflexivity).
Qed.

Lemma decoded_list (items : list pyobj) :
  decoded (PList items)
  = bind (decoded_items items) (fun vs => Ok (JArr vs)).
Proof. reflexivity. Qed.

Lemma decoded_dict (fields : list (key * pyobj)) :
  decoded (PDict fields)
  = bind (decoded_fields fields)
         (fun pairs => Ok (JObj (dict_of_pairs pairs))).
Proof. reflexivity. Qed.

Lemma native_list (items : list pyobj) :
  native (PList items) = native_items items.
Proof. reflexivity. Qed.

Lemma native_dict (fields : list (key * pyobj)) :
  native (PDict fields)
  = native_fields fields
    && distinct (map (fun kv => key_name (fst kv)) fields).
Proof. reflexivity. Qed.

(** A JSON-native object is written and read back as itself. *)
Lemma native_decoded (x : pyobj) :
  native x = true -> exists v, decoded x = Ok v /\ of_json v = x.
Proof.
  induction x as [|b|n|s|items IH|items IH|fields IH|items IH]
    using pyobj_nested_ind; intros Hn; try discriminate Hn.
  - exists JNull. auto.
  - exists (JBool b). auto.
  - exists (JNum n). auto.
  - exists (JStr s). auto.
  - rewrite native_list in Hn. rewrite decoded_list.
    assert (H : exists vs, decoded_items items = Ok vs
                           /\ map of_json vs = items).
    { induction IH as [|y rest Hy _ IHrest]; [exists []; auto|].
      cbn in Hn. apply andb_true_iff in Hn. destruct Hn as [Hny Hnr].
      destruct (Hy Hny) as (v & Ev & Hv).
      destruct (IHrest Hnr) as (vs & Evs & Hvs).
      exists (v :: vs). unfold decoded_items in *. cbn [bind].
      rewrite Ev. cbn [bind]. rewrite Evs. cbn [bind map].
      now rewrite Hv, Hvs. }
    destruct H as (vs & -> & Hvs). exists (JArr vs). cbn [bind of_json].
    now rewrite Hvs.
  - rewrite native_dict in Hn. apply andb_true_iff in Hn.
    destruct Hn as [Hn Hd]. rewrite decoded_dict.
    assert (H : exists pairs,
                  decoded_fields fields = Ok pairs
                  /\ map (fun kv => (KStr (fst kv), of_json (snd kv))) pairs
                     = fields
                  /\ map fst pairs
                     = map (fun kv => key_name (fst kv)) fields).
    { clear Hd. induction IH as [|[k y] rest Hy _ IHrest];
        [exists []; auto|].
      cbn in Hn. apply andb_true_iff in Hn. destruct Hn as [Hn Hnr].
      apply andb_true_iff in Hn. destruct Hn as [Hk Hny].
      destruct k as [name| | |]; try discriminate Hk.
      destruct (Hy Hny) as (v & Ev & Hv).
      destruct (IHrest Hnr) as (ps & Eps & Hps & Hnames).
      exists ((name, v) :: ps). unfold decoded_fields in *. cbn [snd] in Ev.
      rewrite Ev. cbn [bind]. rewrite Eps. cbn [bind map fst snd key_name].
      cbn [snd] in Hv. now rewrite Hv, Hps, Hnames. }
    destruct H as (pairs & -> & Hps & Hnames). cbn [bind].
    rewrite dict_of_pairs_distinct by now rewrite Hnames.
    exists (JObj pairs). split; [reflexivity|]. cbn [of_json]. now rewrite Hps.
Qed.

(** The line of a record whose fields are written as [v1], ..., [v7]. *)
Lemma json_dumps_record (e : ExperienceOf pyobj) (v1 v2 v3 v4 v5 v6 v7 : json) :
  decoded (state e) = Ok v1 -> decoded (action e) = Ok v2 ->
  decoded (reward e) = Ok v3 -> decoded (next_state e) = Ok v4 ->
  decoded (done e) = Ok v5 -> decoded (metadata e) = Ok v6 ->
  decoded (timestamp e) = Ok v7 ->
  json_dumps (asdict e) = Ok (to_json (mkExperience v1 v2 v3 v4 v5 v6 v7)).
Proof.
  intros E1 E2 E3 E4 E5 E6 E7. unfold json_dumps, asdict.
  rewrite decoded_dict. unfold decoded_fields.
  rewrite E1, E2, E3, E4, E5, E6, E7. reflexivity.
Qed.

Lemma native_metadata (m : pyobj) :
  native m = true -> native (if py_truthy m then m else PDict []) = true.
Proof. intros H. now destruct (py_truthy m). Qed.

(** [collect] on JSON-native arguments: the record returned is the original
    of the call, and the line written decodes to it. *)
Lemma collect_native (c : call) (w : world) :
  native_call c = true ->
  exists e,
    collect (arg_state c) (arg_action c) (arg_reward c) (arg_next_state c)
            (arg_done c) (arg_metadata c) w
    = (Ok (original c (clock w (ticks w))),
       {| buffer := Some (lines_of w ++ [to_json e]); clock := clock w;
          ticks := S (ticks w); warnings := warnings w |})
    /\ as_objects e = original c (clock w (ticks w)).
Proof.
  unfold native_call. rewrite !andb_true_iff.
  intros [[[[[H1 H2] H3] H4] H5] H6].
  destruct (native_decoded _ H1) as (v1 & E1 & F1).
  destruct (native_decoded _ H2) as (v2 & E2 & F2).
  destruct (native_decoded _ H3) as (v3 & E3 & F3).
  destruct (native_decoded _ H4) as (v4 & E4 & F4).
  destruct (native_decoded _ H5) as (v5 & E5 & F5).
  destruct (native_decoded _ (native_metadata _ H6)) as (v6 & E6 & F6).
  exists (mkExperience v1 v2 v3 v4 v5 v6 (JStr (clock w (ticks w)))).
  split.
  - unfold collect, _append_to_buffer. cbn [now of_json].
    rewrite (json_dumps_record _ v1 v2 v3 v4 v5 v6 (JStr (clock w (ticks w))))
      by (cbn; auto).
    reflexivity.
  - unfold as_objects, original. cbn [state action reward next_state done
      metadata timestamp of_json]. now rewrite F1, F2, F3, F4, F5, F6.
Qed.

Lemma collect_all_native (calls : list call) :
  forallb native_call calls = true ->
  forall w,
    exists es,
      collect_all calls w
      = (Ok (originals calls (clock w) (ticks w)),
         {| buffer := match calls with
                      | [] => buffer w
                      | _ => Some (lines_of w ++ map to_json es)
                      end;
            clock := clock w; ticks := ticks w + length calls;
            warnings := warnings w |})
      /\ map as_objects es = originals calls (clock w) (ticks w).
Proof.
  induction calls as [|c rest IH]; intros Hn w.
  - exists []. cbn. rewrite Nat.add_0_r. split; [now destruct w|reflexivity].
  - cbn [forallb] in Hn. apply andb_true_iff in Hn. destruct Hn as [Hc Hr].
    destruct (collect_native c w Hc) as (e & Ec & He).
    cbn [collect_all originals]. rewrite Ec.
    match goal with
    | |- context [collect_all rest ?w1] =>
        destruct (IH Hr w1) as (es & Er & Hes)
    end.
    rewrite Er. cbn [clock ticks buffer warnings lines_of] in *.
    exists (e :: es). cbn [map length]. rewrite He, Hes. split; [|reflexivity].
    f_equal. f_equal; [|lia].
    destruct rest as [|c' rest'].
    + cbn in Hes. destruct es; [reflexivity|discriminate Hes].
    + now rewrite <- app_assoc.
Qed.

(** C8, amended.  On an emptied buffer, [N] calls of [collect] whose
    arguments are JSON-native (no tuple, no set, string keys only) return
    their originals, and a load without filters then returns [N] records, in
    the order of the calls, that equal the originals field for field: the
    six arguments, the metadata replaced by [{}] when it is falsy, and as
    timestamp the reading of the clock at the call. *)
Theorem store_round_trip (calls : list call) (w : world)
    (Hnative : forallb native_call calls = true) :
  exists es w1,
    collect_all calls (clear w)
    = (Ok (originals calls (clock w) (ticks w)), w1)
    /\ fst (load_experiences None None None None w1) = Ok es
    /\ map as_objects es = originals calls (clock w) (ticks w)
    /\ length es = length calls.
Proof.
  destruct (collect_all_native calls Hnative (clear w)) as (es & Ec & Hes).
  cbn [clear set_buffer clock ticks buffer warnings lines_of app] in Ec, Hes.
  exists es. eexists. split; [exact Ec|]. split; [|split; [exact Hes|]].
  - rewrite load_experiences_lines.
    destruct calls as [|c rest].
    + cbn in Hes. destruct es; [reflexivity|discriminate].
    + cbn [lines_of buffer]. apply (load_loop_encoded es []).
  - apply (f_equal (@length _)) in Hes. rewrite length_map in Hes.
    rewrite Hes. clear. generalize (ticks w).
    induction calls as [|c rest IH]; intros k; cbn; auto.
Qed.

(** C8, witness: two calls at clock readings ["t0"] and ["t1"], the second
    with metadata. *)
Lemma store_round_trip_witness :
  exists es w1,
    collect_all
      [ mkCall (PDict []) (PDict []) (PNum (of_Z 3)) PNone (PBool true) PNone;
        mkCall (PDict [(KStr "files", PList [PStr "a.py"])]) (PDict [])
               (PNum (of_Z (-4))) PNone (PBool false)
               (PDict [(KStr "task_type", PStr "bug")]) ]
      (clear (mkWorld None (fun k => if Nat.eqb k 0 then "t0" else "t1") 0 []))
    = (Ok [ mkExperience (PDict []) (PDict []) (PNum (of_Z 3)) PNone
                         (PBool true) (PDict []) (PStr "t0");
            mkExperience (PDict [(KStr "files", PList [PStr "a.py"])])
                         (PDict []) (PNum (of_Z (-4))) PNone (PBool false)
                         (PDict [(KStr "task_type", PStr "bug")])
                         (PStr "t1") ], w1)
    /\ fst (load_experiences None None None None w1) = Ok es
    /\ map as_objects es
       = [ mkExperience (PDict []) (PDict []) (PNum (of_Z 3)) PNone
                        (PBool true) (PDict []) (PStr "t0");
           mkExperience (PDict [(KStr "files", PList [PStr "a.py"])])
                        (PDict []) (PNum (of_Z (-4))) PNone (PBool false)
                        (PDict [(KStr "task_type", PStr "bug")])
                        (PStr "t1") ]
    /\ length es = 2.
Proof.
  apply (store_round_trip
           [ mkCall (PDict []) (PDict []) (PNum (of_Z 3)) PNone (PBool true)
                    PNone;
             mkCall (PDict [(KStr "files", PList [PStr "a.py"])]) (PDict [])
                    (PNum (of_Z (-4))) PNone (PBool false)
                    (PDict [(KStr "task_type", PStr "bug")]) ]
           (mkWorld None (fun k => if Nat.eqb k 0 then "t0" else "t1") 0 [])).
  reflexivity.
Defined.

(** C8, counterexample: a state that is a tuple and an action keyed by the
    integer 1.  [collect] returns them as given; the record loaded holds a
    list and the key ["1"], and is not the original. *)
Lemma store_round_trip_changes_tuple :
  exists w1 e,
    collect (PTuple [PNum (of_Z 1); PNum (of_Z 2)])
            (PDict [(KInt 1, PStr "a")]) (PNum (of_Z 3)) PNone (PBool true)
            PNone (mkWorld None (fun _ => "t0") 0 [])
    = (Ok (mkExperience (PTuple [PNum (of_Z 1); PNum (of_Z 2)])
                        (PDict [(KInt 1, PStr "a")]) (PNum (of_Z 3)) PNone
                        (PBool true) (PDict []) (PStr "t0")), w1)
    /\ fst (load_experiences None None None None w1) = Ok [e]
    /\ state e = JArr [JNum (of_Z 1); JNum (of_Z 2)]
    /\ action e = JObj [("1", JStr "a")]
    /\ as_objects e
       <> mkExperience (PTuple [PNum (of_Z 1); PNum (of_Z 2)])
                       (PDict [(KInt 1, PStr "a")]) (PNum (of_Z 3)) PNone
                       (PBool true) (PDict []) (PStr "t0").
Proof.
  eexists. eexists. split; [reflexivity|]. split; [reflexivity|].
  split; [reflexivity|]. split; [reflexivity|]. discriminate.
Qed.

(** An argument [json.dumps] refuses: [collect] raises [TypeError], the
    file is created and nothing is written to it. *)
Example collect_unserialisable (c : nat -> string) :
  collect (PDict [(KStr "seen", PSet [PStr "a"])]) (PDict []) (PNum (of_Z 1))
          PNone (PBool false) PNone (mkWorld None c 0 [])
  = (Raise TypeError, mkWorld (Some []) c 1 []).
Proof. reflexivity. Qed.

End Store.

(* ===================================================================== *)
(** ** Strings: [strip], [in], [replace] and [float]                      *)
(* ===================================================================== *)

Section Strings.
Import Py.
Import Text.
Local Open Scope nat_scope.
Local Open Scope string_scope.

Lemma append_nil_r (s : string) : s ++ "" = s.
Proof. induction s as [|c s IH]; cbn; [reflexivity|now rewrite IH]. Qed.

Lemma append_assoc (a b c : string) : (a ++ b) ++ c = a ++ b ++ c.
Proof. induction a as [|x a IH]; cbn; [reflexivity|now rewrite IH]. Qed.

Lemma has_char_app (c : ascii) (a b : string) :
  has_char c (a ++ b) = has_char c a || has_char c b.
Proof.
  induction a as [|x a IH]; cbn; [reflexivity|]. now rewrite IH, orb_assoc.
Qed.

(** *** [strip], for any class of characters to remove *)

Section Strip.
Variable space : ascii -> bool.

Lemma all_by_has_char (c : ascii) (w : string) :
  all_by space w = true -> space c = false -> has_char c w = false.
Proof.
  induction w as [|x w IH]; cbn; [reflexivity|]. intros H Hc.
  apply andb_true_iff in H. destruct H as [Hx Hw].
  rewrite (IH Hw Hc), orb_false_r.
  destruct (Ascii.eqb_spec x c) as [->|]; [congruence|reflexivity].
Qed.

Lemma lstrip_decomp (s : string) :
  exists w, all_by space w = true /\ s = w ++ lstrip space s.
Proof.
  induction s as [|c s (w & Hw & IH)]; cbn.
  - exists "". now split.
  - destruct (space c) eqn:Hc.
    + exists (String c w). cbn. rewrite Hc, Hw. split; [reflexivity|].
      now rewrite <- IH.
    + exists "". now split.
Qed.

Lemma rstrip_decomp (s : string) :
  exists w, all_by space w = true /\ s = rstrip space s ++ w.
Proof.
  induction s as [|c s (w & Hw & IH)]; cbn.
  - exists "". now split.
  - destruct (rstrip space s) as [|x kept] eqn:E.
    + destruct (space c) eqn:Hc.
      * exists (String c w). cbn. rewrite Hc, Hw. split; [reflexivity|].
        cbn in IH. now rewrite <- IH.
      * exists w. split; [exact Hw|]. cbn. cbn in IH. now rewrite <- IH.
    + exists w. split; [exact Hw|]. cbn. f_equal. exact IH.
Qed.

Lemma rstrip_all (w : string) : all_by space w = true -> rstrip space w = "".
Proof.
  induction w as [|c w IH]; cbn; [reflexivity|]. intros H.
  apply andb_true_iff in H. destruct H as [Hc Hw]. now rewrite (IH Hw), Hc.
Qed.

Lemma rstrip_app_space (s w : string) :
  all_by space w = true -> rstrip space (s ++ w) = rstrip space s.
Proof.
  intros Hw. induction s as [|c s IH]; cbn.
  - now apply rstrip_all.
  - now rewrite IH.
Qed.

Lemma lstrip_app_space (w s : string) :
  all_by space w = true -> lstrip space (w ++ s) = lstrip space s.
Proof.
  induction w as [|c w IH]; cbn; [reflexivity|]. intros H.
  apply andb_true_iff in H. destruct H as [Hc Hw]. rewrite Hc. now apply IH.
Qed.

Lemma rstrip_space_app (w s : string) :
  all_by space w = true ->
  rstrip space (w ++ s)
  = if is_empty (rstrip space s) then "" else w ++ rstrip space s.
Proof.
  induction w as [|c w IH]; cbn.
  - intros _. now destruct (rstrip space s).
  - intros H. apply andb_true_iff in H. destruct H as [Hc Hw].
    rewrite (IH Hw). destruct (rstrip space s) as [|x kept]; cbn.
    + now rewrite Hc.
    + now destruct w.
Qed.

Lemma strip_by_sandwich (w1 x w2 : string) :
  all_by space w1 = true -> all_by space w2 = true ->
  strip_by space (w1 ++ x ++ w2) = strip_by space x.
Proof.
  intros H1 H2. unfold strip_by.
  rewrite (rstrip_space_app _ _ H1), (rstrip_app_space _ _ H2).
  destruct (rstrip space x) as [|c kept] eqn:E; cbn [is_empty]; [reflexivity|].
  now apply lstrip_app_space.
Qed.

Lemma strip_by_decomp (s : string) :
  exists w1 w2,
    all_by space w1 = true /\ all_by space w2 = true
    /\ s = w1 ++ strip_by space s ++ w2.
Proof.
  destruct (rstrip_decomp s) as (w2 & H2 & E2).
  destruct (lstrip_decomp (rstrip space s)) as (w1 & H1 & E1).
  exists w1, w2. repeat split; try assumption.
  unfold strip_by. rewrite <- append_assoc, <- E1. exact E2.
Qed.

(** A character outside the class is in the stripped text exactly when it
    is in the text. *)
Lemma has_char_strip_by (c : ascii) (s : string) :
  space c = false -> has_char c (strip_by space s) = has_char c s.
Proof.
  intros Hc. destruct (strip_by_decomp s) as (w1 & w2 & H1 & H2 & E).
  rewrite E at 2. rewrite !has_char_app.
  rewrite (all_by_has_char _ _ H1 Hc), (all_by_has_char _ _ H2 Hc).
  now rewrite orb_false_r.
Qed.

End Strip.

Lemma strip_sandwich (w1 x w2 : string) :
  all_space w1 = true -> all_space w2 = true ->
  py_strip (w1 ++ x ++ w2) = py_strip x.
Proof. apply strip_by_sandwich. Qed.

Lemma strip_decomp (s : string) :
  exists w1 w2,
    all_space w1 = true /\ all_space w2 = true /\ s = w1 ++ py_strip s ++ w2.
Proof. apply strip_by_decomp. Qed.

Lemma has_char_strip (c : ascii) (s : string) :
  is_space c = false -> has_char c (py_strip s) = has_char c s.
Proof. apply has_char_strip_by. Qed.

(** *** [in] and [replace] with a word *)

Lemma word_cons (p : string) :
  word p = true ->
  exists a q, p = String a q /\ is_space a = false /\ no_space q = true.
Proof.
  unfold word. destruct p as [|a q]; cbn; [discriminate|]. intros H.
  apply andb_true_iff in H. destruct H as [Ha Hq].
  exists a, q. repeat split; [now apply negb_true_iff|exact Hq].
Qed.

Lemma prefix_space_head (p : string) (c : ascii) (r : string) :
  word p = true -> is_space c = true -> prefix p (String c r) = false.
Proof.
  intros Hp Hc. destruct (word_cons p Hp) as (a & q & -> & Ha & _). simpl.
  destruct (ascii_dec a c) as [->|]; [congruence|reflexivity].
Qed.

Lemma prefix_app_space (p : string) :
  no_space p = true ->
  forall x w, all_space w = true -> prefix p (x ++ w) = prefix p x.
Proof.
  induction p as [|a p IH]; intros Hp x w Hw.
  - now destruct x, w.
  - cbn in Hp. apply andb_true_iff in Hp. destruct Hp as [Ha Hp].
    apply negb_true_iff in Ha.
    destruct x as [|b x]; simpl.
    + destruct w as [|b w]; [reflexivity|]. simpl in Hw.
      apply andb_true_iff in Hw. destruct Hw as [Hb _]. simpl.
      destruct (ascii_dec a b) as [->|]; [congruence|reflexivity].
    + destruct (ascii_dec a b); [|reflexivity]. now apply IH.
Qed.

Lemma prefix_length (p s : string) :
  prefix p s = true -> String.length p <= String.length s.
Proof.
  revert p. induction s as [|b s IH]; intros [|a p]; simpl; try lia; try discriminate.
  destruct (ascii_dec a b); [|discriminate]. intros H. apply IH in H. lia.
Qed.

Lemma contains_all_space (p w : string) :
  word p = true -> all_space w = true -> contains p w = false.
Proof.
  intros Hp. induction w as [|c w IH]; intros Hw.
  - cbn. destruct (word_cons p Hp) as (a & q & -> & _). reflexivity.
  - cbn [contains]. cbn in Hw. apply andb_true_iff in Hw. destruct Hw as [Hc Hw].
    now rewrite (prefix_space_head p c w Hp Hc), (IH Hw).
Qed.

Lemma contains_space_l (p w x : string) :
  word p = true -> all_space w = true -> contains p (w ++ x) = contains p x.
Proof.
  intros Hp. induction w as [|c w IH]; intros Hw; [reflexivity|].
  cbn in Hw. apply andb_true_iff in Hw. destruct Hw as [Hc Hw].
  cbn [append contains]. now rewrite (prefix_space_head p c _ Hp Hc), (IH Hw).
Qed.

Lemma word_no_space (p : string) : word p = true -> no_space p = true.
Proof. unfold word. intros H. now apply andb_true_iff in H. Qed.

Lemma contains_space_r (p x w : string) :
  word p = true -> all_space w = true -> contains p (x ++ w) = contains p x.
Proof.
  intros Hp Hw. induction x as [|c x IH].
  - cbn [append]. rewrite (contains_all_space p w Hp Hw). cbn.
    destruct (word_cons p Hp) as (a & q & -> & _). reflexivity.
  - change (String c x ++ w) with (String c (x ++ w)). cbn [contains].
    rewrite IH. f_equal.
    apply (prefix_app_space p (word_no_space p Hp) (String c x) w Hw).
Qed.

Lemma contains_strip (p s : string) :
  word p = true -> contains p (py_strip s) = contains p s.
Proof.
  intros Hp. destruct (strip_decomp s) as (w1 & w2 & H1 & H2 & E).
  rewrite E at 2.
  now rewrite (contains_space_l _ _ _ Hp H1), (contains_space_r _ _ _ Hp H2).
Qed.

Lemma replace_space_l (p w x : string) :
  word p = true -> all_space w = true ->
  py_replace p "" (w ++ x) = w ++ py_replace p "" x.
Proof.
  intros Hp. unfold py_replace. induction w as [|c w IH]; intros Hw; [reflexivity|].
  cbn in Hw. apply andb_true_iff in Hw. destruct Hw as [Hc Hw].
  cbn [append replace_from]. rewrite (prefix_space_head p c _ Hp Hc).
  now rewrite (IH Hw).
Qed.

Lemma replace_all_space (p w : string) :
  word p = true -> all_space w = true -> py_replace p "" w = w.
Proof.
  intros Hp Hw. rewrite <- (append_nil_r w) at 1.
  rewrite (replace_space_l p w "" Hp Hw). cbn. apply append_nil_r.
Qed.

Lemma replace_from_space_r (p w : string) :
  word p = true -> all_space w = true ->
  forall x k, k <= String.length x ->
    replace_from p "" k (x ++ w) = replace_from p "" k x ++ w.
Proof.
  intros Hp Hw. induction x as [|c x IH]; intros k Hk.
  - cbn in Hk. assert (k = 0) as -> by lia. cbn [append replace_from].
    apply (replace_all_space p w Hp Hw).
  - change (String c x ++ w) with (String c (x ++ w)). cbn [replace_from].
    destruct k as [|k].
    + change (String c (x ++ w)) with (String c x ++ w).
      rewrite (prefix_app_space p (word_no_space p Hp) (String c x) w Hw).
      destruct (prefix p (String c x)) eqn:E.
      * cbn [append]. apply IH. apply prefix_length in E. cbn in E. lia.
      * cbn [append]. f_equal. apply IH. lia.
    + apply IH. cbn in Hk. lia.
Qed.

Lemma replace_space_r (p x w : string) :
  word p = true -> all_space w = true ->
  py_replace p "" (x ++ w) = py_replace p "" x ++ w.
Proof.
  intros Hp Hw. apply replace_from_space_r; auto. lia.
Qed.

Lemma replace_sandwich (p w1 x w2 : string) :
  word p = true -> all_space w1 = true -> all_space w2 = true ->
  py_replace p "" (w1 ++ x ++ w2) = w1 ++ py_replace p "" x ++ w2.
Proof.
  intros Hp H1 H2.
  now rewrite (replace_space_l _ _ _ Hp H1), (replace_space_r _ _ _ Hp H2).
Qed.

(** Stripping before or after the removal of words leaves the same text. *)
Lemma strip_replace_strip (p s : string) :
  word p = true ->
  py_strip (py_replace p "" (py_strip s)) = py_strip (py_replace p "" s).
Proof.
  intros Hp. destruct (strip_decomp s) as (w1 & w2 & H1 & H2 & E).
  rewrite E at 2. rewrite (replace_sandwich _ _ _ _ Hp H1 H2).
  symmetry. now apply strip_sandwich.
Qed.

Lemma strip_replace2_strip (p q s : string) :
  word p = true -> word q = true ->
  py_strip (py_replace q "" (py_replace p "" (py_strip s)))
  = py_strip (py_replace q "" (py_replace p "" s)).
Proof.
  intros Hp Hq. destruct (strip_decomp s) as (w1 & w2 & H1 & H2 & E).
  rewrite E at 2.
  rewrite (replace_sandwich _ _ _ _ Hp H1 H2), (replace_sandwich _ _ _ _ Hq H1 H2).
  symmetry. now apply strip_sandwich.
Qed.

(** *** Characters that survive *)

Lemma prefix_has_char (c : ascii) (p x : string) :
  prefix p x = true -> has_char c p = true -> has_char c x = true.
Proof.
  revert p. induction x as [|b x IH]; intros [|a p]; simpl; try discriminate.
  destruct (ascii_dec a b) as [->|]; [|discriminate]. intros Hp Hc.
  apply orb_true_iff in Hc. destruct Hc as [->|Hc]; [reflexivity|].
  rewrite (IH p Hp Hc). apply orb_true_r.
Qed.

Lemma contains_has_char (c : ascii) (p x : string) :
  contains p x = true -> has_char c p = true -> has_char c x = true.
Proof.
  intros Hx Hc. induction x as [|b x IH].
  - simpl in Hx. destruct p; [discriminate Hc|discriminate Hx].
  - cbn [contains] in Hx. apply orb_true_iff in Hx. destruct Hx as [Hx|Hx].
    + now apply (prefix_has_char c p).
    + cbn [has_char]. rewrite (IH Hx). apply orb_true_r.
Qed.

Lemma replace_from_keeps_char (c : ascii) (p : string) :
  is_empty p = false -> has_char c p = false ->
  forall x k q,
    String.length q = k -> has_char c q = false -> prefix q x = true ->
    has_char c x = true -> has_char c (replace_from p "" k x) = true.
Proof.
  intros Hne Hp. induction x as [|b x IH]; intros k q Hk Hq Hpre Hx;
    [discriminate Hx|].
  cbn [replace_from]. destruct k as [|k].
  - destruct (prefix p (String b x)) eqn:E.
    + destruct p as [|a p']; [discriminate Hne|]. cbn [append].
      simpl in E. destruct (ascii_dec a b) as [->|]; [|discriminate].
      cbn [has_char] in Hp, Hx. apply orb_false_elim in Hp. destruct Hp as [Hb Hp'].
      rewrite Hb in Hx. cbn [orb] in Hx.
      apply (IH _ p'); auto. cbn [String.length]. lia.
    + cbn [append has_char]. cbn [has_char] in Hx.
      destruct (Ascii.eqb b c); [reflexivity|]. cbn [orb] in *.
      apply (IH 0 ""); auto. now destruct x.
  - destruct q as [|a q']; [discriminate Hk|].
    simpl in Hpre. destruct (ascii_dec a b) as [->|]; [|discriminate].
    cbn [has_char] in Hq, Hx. apply orb_false_elim in Hq. destruct Hq as [Hb Hq'].
    rewrite Hb in Hx. cbn [orb] in Hx.
    apply (IH k q'); auto.
Qed.

Lemma replace_keeps_char (c : ascii) (p x : string) :
  is_empty p = false -> has_char c p = false ->
  has_char c x = true -> has_char c (py_replace p "" x) = true.
Proof.
  intros Hne Hp Hx. apply (replace_from_keeps_char c p Hne Hp x 0 ""); auto.
  now destruct x.
Qed.

Lemma has_char_lower (c : ascii) (x : string) :
  has_char c x = true -> has_char (lower_char c) (py_lower x) = true.
Proof.
  induction x as [|b x IH]; cbn [has_char py_lower]; [discriminate|].
  intros H. apply orb_true_iff in H. destruct H as [H|H].
  - apply Ascii.eqb_eq in H. subst b. now rewrite Ascii.eqb_refl.
  - rewrite (IH H). apply orb_true_r.
Qed.

(** *** The texts [float] accepts *)

Lemma digitpart_chars (s : string) :
  forall flag c,
    digitpart_from flag s = true -> has_char c s = true -> float_char c = true.
Proof.
  induction s as [|b s IH]; intros flag c Hd Hc; [discriminate Hc|].
  cbn [digitpart_from] in Hd. cbn [has_char] in Hc.
  apply orb_true_iff in Hc. destruct Hc as [Hc|Hc].
  - apply Ascii.eqb_eq in Hc. subst b. unfold float_char.
    destruct (is_digit c); [reflexivity|].
    destruct (Ascii.eqb c "_") eqn:E; [|discriminate].
    apply Ascii.eqb_eq in E. rewrite E. reflexivity.
  - destruct (is_digit b); [now apply (IH true)|].
    destruct (Ascii.eqb b "_"); [|discriminate].
    apply andb_true_iff in Hd. destruct Hd as [_ Hd]. now apply (IH false).
Qed.

Lemma split_on_chars (d : ascii) (s : string) :
  forall a b c,
    split_on d s = (a, b) -> has_char c s = true ->
    c = d \/ has_char c a = true
    \/ exists b', b = Some b' /\ has_char c b' = true.
Proof.
  induction s as [|x s IH]; intros a b c Hs Hc; [discriminate Hc|].
  cbn [split_on] in Hs. cbn [has_char] in Hc.
  destruct (Ascii.eqb_spec x d) as [->|Hne].
  - injection Hs as <- <-. apply orb_true_iff in Hc. destruct Hc as [Hc|Hc].
    + left. symmetry. now apply Ascii.eqb_eq.
    + right. right. eauto.
  - destruct (split_on d s) as [before after] eqn:E. injection Hs as <- <-.
    apply orb_true_iff in Hc. destruct Hc as [Hc|Hc].
    + right. left. cbn [has_char]. now rewrite Hc.
    + destruct (IH _ _ c eq_refl Hc) as [H|[H|H]]; auto.
      right. left. cbn [has_char]. rewrite H. apply orb_true_r.
Qed.

Lemma split_sign_chars (s : string) (c : ascii) :
  has_char c s = true ->
  float_char c = true \/ has_char c (snd (split_sign s)) = true.
Proof.
  destruct s as [|x s]; [discriminate|]. unfold split_sign.
  destruct (Ascii.eqb_spec x "-") as [->|]; [|destruct (Ascii.eqb_spec x "+") as [->|]].
  3: now right.
  all: cbn [has_char snd]; intros H; apply orb_true_iff in H;
    destruct H as [H|H]; [left|now right];
    apply Ascii.eqb_eq in H; subst c; reflexivity.
Qed.

Lemma digitpart_or_empty_chars (s : string) (c : ascii) :
  is_empty s || digitpart s = true -> has_char c s = true -> float_char c = true.
Proof.
  intros H Hc. apply orb_true_iff in H. destruct H as [H|H].
  - destruct s; [discriminate Hc|discriminate H].
  - now apply (digitpart_chars s false).
Qed.

Lemma float_number_chars (body : string) (q : Q) (c : ascii) :
  float_number body = Some q -> has_char c body = true -> float_char c = true.
Proof.
  unfold float_number. intros H Hc.
  destruct (split_on "e" body) as [mantissa exponent] eqn:E1.
  destruct (split_on "." mantissa) as [int_part fraction] eqn:E2.
  match type of H with
  | (if ?mok && ?eok then _ else _) = _ =>
      destruct mok eqn:Hm; [destruct eok eqn:He|]; try discriminate H
  end.
  clear H.
  destruct (split_on_chars _ _ _ _ c E1 Hc) as [->|[Hc1|(e & -> & Hc1)]];
    [reflexivity| |].
  - destruct (split_on_chars _ _ _ _ c E2 Hc1) as [->|[Hc2|(f & -> & Hc2)]];
      [reflexivity| |].
    + apply (digitpart_or_empty_chars int_part); [|exact Hc2].
      destruct fraction as [f|].
      * apply orb_true_iff in Hm. destruct Hm as [Hm|Hm];
          apply andb_true_iff in Hm; destruct Hm as [Hm _]; [exact Hm|].
        rewrite Hm. apply orb_true_r.
      * rewrite Hm. apply orb_true_r.
    + apply (digitpart_or_empty_chars f); [|exact Hc2].
      apply orb_true_iff in Hm. destruct Hm as [Hm|Hm];
        apply andb_true_iff in Hm; destruct Hm as [_ Hm];
        rewrite Hm; [apply orb_true_r|reflexivity].
  - destruct (split_sign_chars e c Hc1) as [H|H]; [exact H|].
    apply (digitpart_chars (snd (split_sign e)) false); [exact He|exact H].
Qed.

Lemma word_chars (body : string) (c : ascii) :
  String.eqb body "inf" || String.eqb body "infinity" || String.eqb body "nan"
  = true ->
  has_char c body = true -> float_char c = true.
Proof.
  intros H Hc. unfold float_char.
  repeat (apply orb_true_iff in H; destruct H as [H|H]);
    apply String.eqb_eq in H; subst body; cbn [has_char] in Hc |- *;
    repeat (destruct (Ascii.eqb _ c); [now rewrite ?orb_true_r|]);
    discriminate Hc.
Qed.

Lemma py_float_raises (x : string) (e : exn) :
  py_float x = Raise e -> e = ValueError.
Proof.
  unfold py_float. destruct (split_sign _) as [negative body].
  destruct (String.eqb body "inf" || String.eqb body "infinity");
    [intros H; discriminate H|].
  destruct (String.eqb body "nan"); [intros H; discriminate H|].
  destruct (float_number body); [intros H; discriminate H|]. now intros [= <-].
Qed.

Lemma py_float_chars (x : string) (v : num) (c : ascii) :
  py_float x = Ok v ->
  has_char c (py_lower (strip_by is_float_space x)) = true ->
  float_char c = true.
Proof.
  unfold py_float. intros H Hc.
  destruct (split_sign_chars _ c Hc) as [Hf|Hb]; [exact Hf|].
  destruct (split_sign (py_lower (strip_by is_float_space x)))
    as [negative body].
  cbn [snd] in Hb.
  destruct (String.eqb body "inf" || String.eqb body "infinity") eqn:E1.
  { apply (word_chars body); [now rewrite E1|exact Hb]. }
  destruct (String.eqb body "nan") eqn:E2.
  { apply (word_chars body); [rewrite E2; apply orb_true_r|exact Hb]. }
  destruct (float_number body) as [q|] eqn:E3; [|discriminate H].
  now apply (float_number_chars body q).
Qed.

(** A text with a character foreign to [float] is refused. *)
Lemma py_float_rejects (c : ascii) (x : string) :
  is_float_space c = false -> float_char (lower_char c) = false ->
  has_char c x = true -> py_float x = Raise ValueError.
Proof.
  intros Hs Hf Hc. destruct (py_float x) as [v|e] eqn:E.
  - rewrite <- (has_char_strip_by is_float_space c x Hs) in Hc.
    apply has_char_lower in Hc.
    rewrite (py_float_chars x v _ E Hc) in Hf. discriminate.
  - now rewrite (py_float_raises x e E).
Qed.

End Strings.

(* ===================================================================== *)
(** ** The time parsers                                                   *)
(* ===================================================================== *)

Section Time.
Import Py.
Import Collector.
Import Train.
Import Text.
Import RewardSpec.
Import EncoderSpec.
Local Open Scope nat_scope.
Local Open Scope string_scope.

(** C2, amended.  [parse_time] is deterministic but not total.  On the
    lower-cased, stripped text it looks for "min", then "hour", then "day";
    the first one found is removed and what is left is read by [float]: the
    result is that number (as minutes, times 60, times 8 times 60) when
    [float] accepts the rest, and [ValueError] otherwise.  A text with none
    of the three yields 60, and [ValueError] is the only exception. *)
Theorem parse_time_by_cases (s : string) :
  let text := py_strip (py_lower s) in
  (contains "min" text = true ->
   parse_time (JStr s) = py_float (py_strip (py_replace "min" "" text)))
  /\ (contains "min" text = false -> contains "hour" text = true ->
      parse_time (JStr s)
      = bind (py_float (py_strip (py_replace "hour" ""
                                    (py_replace "hours" "" text))))
             (fun hours => Ok (num_mul hours (of_Z 60))))
  /\ (contains "min" text = false -> contains "hour" text = false ->
      contains "day" text = true ->
      parse_time (JStr s)
      = bind (py_float (py_strip (py_replace "day" ""
                                    (py_replace "days" "" text))))
             (fun days => Ok (num_mul (num_mul days (of_Z 8)) (of_Z 60))))
  /\ (contains "min" text = false -> contains "hour" text = false ->
      contains "day" text = false ->
      parse_time (JStr s) = Ok (of_Z 60))
  /\ (forall e, parse_time (JStr s) = Raise e -> e = ValueError)
  /\ (returns (parse_time (JStr s)) = false ->
      (contains "min" text || contains "hour" text || contains "day" text)
      = true).
Proof.
  cbv zeta. unfold parse_time. repeat split.
  - now intros ->.
  - now intros -> ->.
  - now intros -> -> ->.
  - now intros -> -> ->.
  - intros e.
    destruct (contains "min" _); [apply py_float_raises|].
    destruct (contains "hour" _).
    { destruct (py_float _) as [h|x] eqn:E; cbn [bind]; [discriminate|].
      intros [= <-]. now apply py_float_raises in E. }
    destruct (contains "day" _); [|discriminate].
    destruct (py_float _) as [h|x] eqn:E; cbn [bind]; [discriminate|].
    intros [= <-]. now apply py_float_raises in E.
  - destruct (contains "min" _); [reflexivity|].
    destruct (contains "hour" _); [reflexivity|].
    destruct (contains "day" _); [reflexivity|]. discriminate.
Qed.

(** C2, counterexample: ["5 minutes"] contains "min"; what is left,
    ["5 utes"], is no number, and [parse_time] raises. *)
Lemma parse_time_five_minutes_raises :
  parse_time (JStr "5 minutes") = Raise ValueError.
Proof. reflexivity. Qed.

(** The values the specification lists. *)
Example parse_time_listed_values :
  yields (parse_time (JStr "30 min")) (of_Z 30) = true
  /\ yields (parse_time (JStr "1 hour")) (of_Z 60) = true
  /\ yields (parse_time (JStr "2 hours")) (of_Z 120) = true
  /\ yields (parse_time (JStr "1 day")) (of_Z 480) = true
  /\ yields (parse_time (JStr "garbage")) (of_Z 60) = true
  /\ yields (parse_time (JStr " 1.5 Hours ")) (of_Z 90) = true.
Proof. repeat split; reflexivity. Qed.

(** With both "min" and "hour" in the text each parser leaves a letter of
    the other unit for [float], which refuses it. *)
Lemma both_units_inline (u : string) :
  contains "min" u = true ->
  py_float (py_strip (py_replace "hour" "" (py_replace "hours" "" u)))
  = Raise ValueError.
Proof.
  intros Hm. apply (py_float_rejects "m"); try reflexivity.
  rewrite has_char_strip by reflexivity.
  apply replace_keeps_char; try reflexivity.
  apply replace_keeps_char; try reflexivity.
  now apply (contains_has_char "m" "min").
Qed.

Lemma both_units_parse (u : string) :
  contains "hour" u = true ->
  py_float (py_strip (py_replace "min" "" (py_strip u))) = Raise ValueError.
Proof.
  intros Hh. apply (py_float_rejects "h"); try reflexivity.
  rewrite has_char_strip by reflexivity.
  apply replace_keeps_char; try reflexivity.
  rewrite has_char_strip by reflexivity.
  now apply (contains_has_char "h" "hour").
Qed.

(** The two parsers agree on every text but those whose only unit is
    "day". *)
Lemma inline_minutes_parse_time (s : string) :
  contains "min" (py_lower s) = true
  \/ contains "hour" (py_lower s) = true
  \/ contains "day" (py_lower s) = false ->
  inline_minutes (JStr s) = parse_time (JStr s).
Proof.
  intros H. unfold inline_minutes, parse_time.
  rewrite !contains_strip by reflexivity.
  destruct (contains "hour" (py_lower s)) eqn:Hh;
    destruct (contains "min" (py_lower s)) eqn:Hm.
  - rewrite (both_units_inline _ Hm), (both_units_parse _ Hh). reflexivity.
  - now rewrite strip_replace2_strip by reflexivity.
  - now rewrite strip_replace_strip by reflexivity.
  - destruct H as [H|[H|H]]; try discriminate. now rewrite H.
Qed.

(** Without "hour" and "min" in the text the inline parser gives 60
    minutes, whatever else the text holds. *)
Lemma inline_minutes_fallback (s : string) :
  contains "hour" (py_lower s) = false ->
  contains "min" (py_lower s) = false ->
  inline_minutes (JStr s) = Ok (of_Z 60).
Proof. intros Hh Hm. unfold inline_minutes. now rewrite Hh, Hm. Qed.

(** The state vector of a metadata mapping with a time text, from the
    minutes the inline parser gives. *)
Lemma extract_state_vector_scalar (e : Experience) (d : dict) :
  metadata e = JObj d ->
  (forall minutes scaled,
     inline_minutes (get_or (JStr "1 hour") "estimated_time" d) = Ok minutes ->
     num_div minutes (of_Z 480) = Ok scaled ->
     exists v, extract_state_vector e = Ok v
               /\ nth_error v 17 = Some (to_float32 (py_min scaled one)))
  /\ (forall x,
        inline_minutes (get_or (JStr "1 hour") "estimated_time" d) = Raise x ->
        extract_state_vector e = Raise x).
Proof.
  intros Hmeta. unfold extract_state_vector. rewrite Hmeta.
  cbn [py_get bind]. split.
  - intros minutes scaled -> . cbn [bind]. intros ->. cbn [bind].
    eexists. split; reflexivity.
  - intros x ->. reflexivity.
Qed.

(** C3, amended.  The time scalar is computed by an inline parser that tests
    "hour" before "min" and has no "day" branch, and it is cast to single
    precision.  For an experience whose [estimated_time] text (default
    ["1 hour"]) contains "min" or "hour", or does not contain "day", the
    minutes computed inline are those of [parse_time] on the same text (the
    same number, or the same exception, which then leaves
    [extract_state_vector]), and the scalar at index 17 of the state vector
    is [float32(min(parse_time(text) / 480, 1.0))].  A text with neither
    "hour" nor "min", so every text whose only unit is "day", is encoded as
    60 minutes: the state vector is returned with the scalar 0.125. *)
Theorem state_time_scalar_uses_parse_time
    (e : Experience) (d : dict) (s : string)
    (Hmeta : metadata e = JObj d)
    (Htext : get_or (JStr "1 hour") "estimated_time" d = JStr s) :
  (contains "min" (py_lower s) = true
   \/ contains "hour" (py_lower s) = true
   \/ contains "day" (py_lower s) = false ->
   inline_minutes (JStr s) = parse_time (JStr s)
   /\ (forall v, extract_state_vector e = Ok v ->
         exists minutes scaled,
           parse_time (JStr s) = Ok minutes
           /\ num_div minutes (of_Z 480) = Ok scaled
           /\ nth_error v 17 = Some (to_float32 (py_min scaled one)))
   /\ (forall x, parse_time (JStr s) = Raise x ->
         extract_state_vector e = Raise x))
  /\ (contains "hour" (py_lower s) = false ->
      contains "min" (py_lower s) = false ->
      inline_minutes (JStr s) = Ok (of_Z 60)
      /\ exists v, extract_state_vector e = Ok v
                   /\ nth_error v 17 = Some (Fin (1 # 8))).
Proof.
  destruct (extract_state_vector_scalar e d Hmeta) as [Hok Hraise].
  rewrite Htext in Hok, Hraise.
  split.
  - intros Hunit. pose proof (inline_minutes_parse_time s Hunit) as Heq.
    split; [exact Heq|]. rewrite Heq in Hok, Hraise. split; [|exact Hraise].
    intros v Hv.
    destruct (parse_time (JStr s)) as [minutes|x] eqn:E1;
      [|rewrite (Hraise x eq_refl) in Hv; discriminate].
    destruct (div_480 minutes) as [scaled E2].
    destruct (Hok minutes scaled eq_refl E2) as (v' & Hv' & Hn).
    rewrite Hv in Hv'. apply Ok_inj in Hv'. subst v'.
    exists minutes, scaled. auto.
  - intros Hh Hm. pose proof (inline_minutes_fallback s Hh Hm) as Heq.
    split; [exact Heq|].
    destruct (Hok (of_Z 60) (Fin (60 / 480)) Heq eq_refl) as (v & Hv & Hn).
    exists v. split; [exact Hv|]. rewrite Hn. reflexivity.
Qed.

(** C3, witness: twenty minutes, 1/24 of the eight hours, is not a single
    precision number; the scalar is the nearest one. *)
Lemma state_time_scalar_witness :
  inline_minutes (JStr "20 min") = parse_time (JStr "20 min")
  /\ (forall v,
        extract_state_vector
          (with_metadata [("estimated_time", JStr "20 min")]) = Ok v ->
        exists minutes scaled,
          parse_time (JStr "20 min") = Ok minutes
          /\ num_div minutes (of_Z 480) = Ok scaled
          /\ nth_error v 17 = Some (to_float32 (py_min scaled one)))
  /\ (forall x, parse_time (JStr "20 min") = Raise x ->
        extract_state_vector
          (with_metadata [("estimated_time", JStr "20 min")]) = Raise x).
Proof.
  apply (state_time_scalar_uses_parse_time
           (with_metadata [("estimated_time", JStr "20 min")])
           [("estimated_time", JStr "20 min")] "20 min" eq_refl eq_refl).
  left. reflexivity.
Defined.

(** The scalar of twenty minutes, next to the exact quotient. *)
Example twenty_minutes_scalar :
  exists v,
    extract_state_vector (with_metadata [("estimated_time", JStr "20 min")])
    = Ok v
    /\ nth_error v 17 = Some (Fin (11184811 # 268435456))
    /\ yields (bind (parse_time (JStr "20 min"))
                 (fun minutes => num_div minutes (of_Z 480)))
              (Fin (1 # 24)) = true.
Proof. eexists. repeat split; reflexivity. Qed.

(** C3, counterexample: for ["1 day"] the inline parser has no "day" branch
    and falls back to 60 minutes where [parse_time] gives 480; the scalar of
    the state vector is 60 / 480 = 0.125, not [min(480 / 480, 1.0)] = 1. *)
Lemma one_day_scalar_differs :
  inline_minutes (JStr "1 day") = Ok (of_Z 60)
  /\ parse_time (JStr "1 day") = Ok (of_Z 480)
  /\ (exists v,
        extract_state_vector
          (with_metadata [("estimated_time", JStr "1 day")]) = Ok v
        /\ nth_error v 17 = Some (Fin (1 # 8)))
  /\ yields (bind (parse_time (JStr "1 day"))
               (fun minutes =>
                  bind (num_div minutes (of_Z 480))
                       (fun scaled => Ok (to_float32 (py_min scaled one)))))
            (Fin (1 # 8)) = false.
Proof.
  split; [reflexivity|]. split; [reflexivity|]. split; [|reflexivity].
  eexists. split; reflexivity.
Qed.

End Time.

(* ===================================================================== *)
(** ** The encoders                                                       *)
(* ===================================================================== *)

Section Encoder.
Import Py.
Import Collector.
Import Train.
Import EncoderSpec.
Import RewardSpec.
Local Open Scope nat_scope.

Lemma pad_loop_app (k : nat) :
  forall l, pad_loop k l = l ++ repeat zero k.
Proof.
  induction k as [|k IH]; intros l; cbn [pad_loop repeat].
  - now rewrite app_nil_r.
  - rewrite IH, <- app_assoc. reflexivity.
Qed.

Lemma firstn_pad_to_length (n : nat) (l : list num) :
  length (np_array_float32 (firstn n (pad_to n l))) = n.
Proof.
  unfold pad_to, np_array_float32.
  rewrite length_map, pad_loop_app, length_firstn, length_app, repeat_length.
  lia.
Qed.

Lemma membership_container (used : json) (vocabulary : list string) :
  is_container used = true -> exists bits, membership used vocabulary = Ok bits.
Proof.
  intros H. induction vocabulary as [|s rest [bs IH]]; cbn [membership].
  - eauto.
  - rewrite IH. destruct used; try discriminate; cbn; eauto.
Qed.

(** *** Entries that are 0 or 1 *)

(** 0 and 1 are single precision numbers. *)
Lemma to_float32_bit (x : num) : is_bit x -> to_float32 x = x.
Proof. intros [-> | ->]; reflexivity. Qed.

Lemma np_array_float32_bits (l : list num) :
  Forall is_bit l -> np_array_float32 l = l.
Proof.
  unfold np_array_float32. induction 1 as [|x rest Hx _ IH]; cbn [map].
  - reflexivity.
  - now rewrite IH, to_float32_bit.
Qed.

Lemma ones_app (a b : list num) : ones (a ++ b) = ones a + ones b.
Proof. unfold ones. now rewrite filter_app, length_app. Qed.

Lemma ones_cons (x : num) (l : list num) :
  ones (x :: l) = (if num_eqb x one then 1 else 0) + ones l.
Proof. unfold ones. cbn [filter]. now destruct (num_eqb x one). Qed.

Lemma ones_repeat_zero (n : nat) : ones (repeat zero n) = 0.
Proof.
  induction n as [|n IH]; [reflexivity|]. cbn [repeat]. now rewrite ones_cons.
Qed.

Lemma repeat_zero_bits (n : nat) : Forall is_bit (repeat zero n).
Proof. apply Forall_forall. intros x Hx. apply repeat_spec in Hx. now left. Qed.

Lemma eq_str_true (x : json) (s : string) : eq_str x s = true -> x = JStr s.
Proof.
  destruct x; cbn; try discriminate. intros H. apply String.eqb_eq in H.
  now subst.
Qed.

Lemma eq_str_eq (v : json) (s t : string) :
  eq_str v s = true -> eq_str v t = true -> s = t.
Proof.
  intros H1 H2. apply eq_str_true in H1, H2. congruence.
Qed.

Lemma one_hot_of_bits (v : json) (vocabulary : list string) :
  Forall is_bit (one_hot_of v vocabulary).
Proof.
  unfold one_hot_of. apply Forall_forall. intros x Hx.
  apply in_map_iff in Hx. destruct Hx as (t & <- & _).
  destruct (eq_str v t); [now right | now left].
Qed.

Lemma one_hot_at_bits (idx n : nat) : Forall is_bit (one_hot_at idx n).
Proof.
  unfold one_hot_at. apply Forall_forall. intros x Hx.
  apply in_map_iff in Hx. destruct Hx as (i & <- & _).
  destruct (Nat.eqb i idx); [now right | now left].
Qed.

Lemma one_hot_of_miss (v : json) (vocabulary : list string) :
  (forall t, In t vocabulary -> eq_str v t = false) ->
  one_hot_of v vocabulary = repeat zero (length vocabulary).
Proof.
  induction vocabulary as [|t rest IH]; intros H; [reflexivity|].
  unfold one_hot_of in *. cbn [map length repeat].
  rewrite (H t) by now left. rewrite IH; [reflexivity|].
  intros u Hu. apply H. now right.
Qed.

(** A value outside the vocabulary marks no word. *)
Lemma one_hot_of_unknown (v : json) (vocabulary : list string) :
  unknown v vocabulary = true ->
  one_hot_of v vocabulary = repeat zero (length vocabulary).
Proof.
  unfold unknown. rewrite negb_true_iff. intros H. apply one_hot_of_miss.
  intros t Ht. destruct (eq_str v t) eqn:E; [|reflexivity].
  assert (existsb (eq_str v) vocabulary = true)
    by (apply existsb_exists; eauto).
  congruence.
Qed.

(** A vocabulary without repetition marks at most one of its words. *)
Lemma one_hot_of_ones (v : json) (vocabulary : list string) :
  NoDup vocabulary -> ones (one_hot_of v vocabulary) <= 1.
Proof.
  induction 1 as [|t rest Hnot Hnd IH]; [cbn; lia|].
  unfold one_hot_of in *. cbn [map]. rewrite ones_cons.
  destruct (eq_str v t) eqn:E.
  - fold (one_hot_of v rest). rewrite one_hot_of_miss.
    + rewrite ones_repeat_zero. cbn. lia.
    + intros u Hu. destruct (eq_str v u) eqn:E'; [|reflexivity].
      exfalso. apply Hnot. now rewrite (eq_str_eq v t u E E').
  - exact IH.
Qed.

Lemma one_hot_from_ones (idx n : nat) :
  forall a,
    ones (map (fun i => if Nat.eqb i idx then one else zero) (seq a n))
    = if (a <=? idx) && (idx <? a + n) then 1 else 0.
Proof.
  induction n as [|n IH]; intros a; cbn [seq map].
  - destruct (Nat.leb_spec a idx), (Nat.ltb_spec idx (a + 0)); cbn;
      try reflexivity.
    lia.
  - rewrite ones_cons, IH. destruct (Nat.eqb_spec a idx) as [->|Hne].
    + destruct (Nat.leb_spec (S idx) idx); [lia|].
      destruct (Nat.leb_spec idx idx); [|lia].
      destruct (Nat.ltb_spec idx (idx + S n)); [|lia]. reflexivity.
    + destruct (Nat.leb_spec (S a) idx), (Nat.leb_spec a idx),
        (Nat.ltb_spec idx (S a + n)), (Nat.ltb_spec idx (a + S n));
        cbn; try reflexivity; lia.
Qed.

(** An index within the block marks exactly one entry. *)
Lemma one_hot_at_ones (idx n : nat) : idx < n -> ones (one_hot_at idx n) = 1.
Proof.
  intros H. unfold one_hot_at. rewrite one_hot_from_ones.
  destruct (Nat.ltb_spec idx (0 + n)); [reflexivity|lia].
Qed.

Lemma index_of_bound (v : json) (levels : list string) (i : nat) :
  index_of v levels = Some i -> i < length levels.
Proof.
  revert i. induction levels as [|t rest IH]; intros i; cbn [index_of length].
  - discriminate.
  - destruct (eq_str v t); [intros [= <-]; lia|].
    destruct (index_of v rest) as [j|]; cbn; [|discriminate].
    intros [= <-]. specialize (IH j eq_refl). lia.
Qed.

Lemma index_or_bound (v : json) (levels : list string) (default : nat) :
  default < length levels -> index_or v levels default < length levels.
Proof.
  intros H. unfold index_or.
  destruct (index_of v levels) as [i|] eqn:E; [|exact H].
  now apply index_of_bound in E.
Qed.

Lemma unknown_index_of (x : json) (vocabulary : list string) :
  unknown x vocabulary = true -> index_of x vocabulary = None.
Proof.
  unfold unknown. rewrite negb_true_iff.
  induction vocabulary as [|t rest IH]; cbn [existsb index_of]; [reflexivity|].
  intros H. apply orb_false_elim in H. destruct H as [-> H].
  now rewrite IH.
Qed.

(** A value outside the levels takes the default index. *)
Lemma index_or_unknown (x : json) (levels : list string) (default : nat) :
  unknown x levels = true -> index_or x levels default = default.
Proof. intros H. unfold index_or. now rewrite (unknown_index_of _ _ H). Qed.

Lemma membership_bits (used : json) (vocabulary : list string) :
  forall bits,
    membership used vocabulary = Ok bits ->
    length bits = length vocabulary /\ Forall is_bit bits.
Proof.
  induction vocabulary as [|s rest IH]; intros bits; cbn [membership].
  - intros H. apply Ok_inj in H. subst bits. split; [reflexivity|constructor].
  - intros H. apply bind_ok_inv in H. destruct H as (b & _ & H).
    apply bind_ok_inv in H. destruct H as (bs & E & H).
    apply Ok_inj in H. subst bits. destruct (IH bs E) as [Hl Hb].
    split; [cbn; now rewrite Hl|].
    constructor; [destruct b; [now right | now left] | exact Hb].
Qed.

(** *** The vectors, block by block *)

Lemma extract_state_vector_blocks (e : Experience) (v : list num) :
  extract_state_vector e = Ok v ->
  exists d minutes scaled,
    metadata e = JObj d
    /\ inline_minutes (get_or (JStr "1 hour") "estimated_time" d) = Ok minutes
    /\ num_div minutes (of_Z 480) = Ok scaled
    /\ v = one_hot_of (get_or (JStr "feature") "task_type" d) task_types
           ++ one_hot_of (get_or (JStr "backend") "domain" d) domains
           ++ one_hot_at (index_or (get_or (JStr "medium") "complexity" d)
                            complexity_levels 1) 3
           ++ one_hot_at (index_or (get_or (JStr "low") "risk_level" d)
                            risk_levels 0) 3
           ++ [to_float32 (py_min scaled one)] ++ repeat zero 32.
Proof.
  unfold extract_state_vector. intros H.
  destruct (metadata e) as [| | | | |d]; try discriminate.
  cbn [py_get bind] in H.
  destruct (inline_minutes _) as [t|] eqn:Et; cbn [bind] in H; [|discriminate].
  destruct (num_div t (of_Z 480)) as [q|] eqn:Eq; cbn [bind] in H;
    [|discriminate].
  apply Ok_inj in H. subst v. exists d, t, q. repeat split; try assumption.
  set (T := one_hot_of (get_or (JStr "feature") "task_type" d) task_types).
  set (D := one_hot_of (get_or (JStr "backend") "domain" d) domains).
  set (C := one_hot_at (index_or (get_or (JStr "medium") "complexity" d)
                          complexity_levels 1) 3).
  set (R := one_hot_at (index_or (get_or (JStr "low") "risk_level" d)
                          risk_levels 0) 3).
  change (np_array_float32
            (T ++ D ++ C ++ R ++ [py_min q one] ++ repeat zero 32)
          = T ++ D ++ C ++ R ++ [to_float32 (py_min q one)] ++ repeat zero 32).
  unfold np_array_float32. rewrite !map_app.
  fold (np_array_float32 T). fold (np_array_float32 D).
  fold (np_array_float32 C). fold (np_array_float32 R).
  fold (np_array_float32 (repeat zero 32)).
  rewrite (np_array_float32_bits T) by apply one_hot_of_bits.
  rewrite (np_array_float32_bits D) by apply one_hot_of_bits.
  rewrite (np_array_float32_bits C) by apply one_hot_at_bits.
  rewrite (np_array_float32_bits R) by apply one_hot_at_bits.
  rewrite (np_array_float32_bits (repeat zero 32)) by apply repeat_zero_bits.
  reflexivity.
Qed.

Lemma extract_action_vector_blocks (e : Experience) (v : list num) :
  extract_action_vector e = Ok v ->
  exists d skill_bits agent_bits,
    metadata e = JObj d
    /\ membership
         (let skills_used := get_or (JArr []) "skills_used" d in
          let domain := get_or (JStr "") "domain" d in
          if negb (truthy skills_used) && truthy domain then
            if eq_str domain "backend" then strs ["backend"; "api-design"]
            else if eq_str domain "frontend" then strs ["frontend"]
            else if eq_str domain "database" then strs ["database"]
            else if eq_str domain "security" then strs ["security"]
            else skills_used
          else skills_used) all_skills = Ok skill_bits
    /\ membership (get_or (JArr []) "agents_used" d) all_agents = Ok agent_bits
    /\ v = skill_bits ++ agent_bits
           ++ one_hot_at (index_or (get_or (JStr "direct") "strategy" d)
                            strategies 0) 4
           ++ repeat zero 11.
Proof.
  unfold extract_action_vector. intros H.
  destruct (metadata e) as [| | | | |d]; try discriminate.
  cbn [py_get bind] in H. cbv zeta.
  destruct (membership _ all_skills) as [sb|] eqn:Es; cbn [bind] in H;
    [|discriminate].
  destruct (membership _ all_agents) as [ab|] eqn:Ea; cbn [bind] in H;
    [|discriminate].
  exists d, sb, ab. apply Ok_inj in H. subst v.
  destruct (membership_bits _ _ _ Es) as [Ls Bs].
  destruct (membership_bits _ _ _ Ea) as [La Ba].
  split; [reflexivity|]. split; [exact Es|]. split; [exact Ea|].
  set (S := one_hot_at (index_or (get_or (JStr "direct") "strategy" d)
                          strategies 0) 4).
  assert (HS : length S = 4) by reflexivity.
  cbn [length all_skills all_agents] in Ls, La.
  unfold pad_to. rewrite pad_loop_app. cbn [app].
  rewrite !length_app, Ls, La, HS. cbn [Nat.add Nat.sub].
  rewrite firstn_all2 by (rewrite !length_app, Ls, La, HS; cbn; lia).
  rewrite <- (app_assoc (sb ++ ab)), <- (app_assoc sb).
  apply np_array_float32_bits.
  repeat (apply Forall_app; split);
    auto using repeat_zero_bits. apply one_hot_at_bits.
Qed.

(** Whenever the encoders return, the vectors have 50 and 30 elements. *)
Lemma extract_state_vector_length (e : Experience) (v : list num) :
  extract_state_vector e = Ok v -> length v = 50.
Proof.
  unfold extract_state_vector. intros H. bind_inv H.
  cbv zeta in H. apply Ok_inj in H. subst v. apply firstn_pad_to_length.
Qed.

Lemma extract_action_vector_length (e : Experience) (v : list num) :
  extract_action_vector e = Ok v -> length v = 30.
Proof.
  unfold extract_action_vector. intros H. bind_inv H.
  cbv zeta in H. bind_inv H. apply Ok_inj in H. subst v.
  apply firstn_pad_to_length.
Qed.

(** On a metadata mapping, [extract_state_vector] returns exactly when its
    inline time parser does. *)
Lemma extract_state_vector_returns (e : Experience) (d : dict) :
  metadata e = JObj d ->
  returns (extract_state_vector e)
  = returns (inline_minutes (get_or (JStr "1 hour") "estimated_time" d)).
Proof.
  intros Hm. unfold extract_state_vector. rewrite Hm. cbn [py_get bind].
  destruct (inline_minutes _) as [t|]; cbn [bind]; [|reflexivity].
  destruct (div_480 t) as [q ->]. reflexivity.
Qed.

Lemma extract_action_vector_returns (e : Experience) (d : dict) :
  metadata e = JObj d ->
  is_container (get_or (JArr []) "skills_used" d) = true ->
  is_container (get_or (JArr []) "agents_used" d) = true ->
  exists v, extract_action_vector e = Ok v.
Proof.
  intros Hm Hs Ha. unfold extract_action_vector. rewrite Hm. cbn [py_get bind].
  match goal with
  | |- context [membership ?u all_skills] =>
      destruct (membership_container u all_skills) as [bs ->]
  end.
  { repeat match goal with
    | |- context [if ?b then _ else _] => destruct b
    end; auto. }
  destruct (membership_container _ all_agents Ha) as [bs' ->].
  cbn [bind]. eauto.
Qed.

(** The blocks of the state vector, one by one. *)
Lemma state_vector_block_values (e : Experience) (d : dict) (v : list num) :
  metadata e = JObj d ->
  extract_state_vector e = Ok v ->
  block 0 6 v = one_hot_of (get_or (JStr "feature") "task_type" d) task_types
  /\ block 6 5 v = one_hot_of (get_or (JStr "backend") "domain" d) domains
  /\ block 11 3 v
     = one_hot_at (index_or (get_or (JStr "medium") "complexity" d)
                     complexity_levels 1) 3
  /\ block 14 3 v
     = one_hot_at (index_or (get_or (JStr "low") "risk_level" d)
                     risk_levels 0) 3
  /\ skipn 18 v = repeat zero 32.
Proof.
  intros Hmeta Hv.
  destruct (extract_state_vector_blocks e v Hv)
    as (d' & minutes & scaled & Hd & _ & _ & ->).
  rewrite Hmeta in Hd. apply (f_equal (fun j => match j with
                                               | JObj f => f
                                               | _ => []
                                               end)) in Hd.
  subst d'. repeat split; reflexivity.
Qed.

(** The skills [extract_action_vector] looks up are those the
    specification words. *)
Lemma inferred_skills_spec (d : dict) :
  (let skills_used := get_or (JArr []) "skills_used" d in
   let domain := get_or (JStr "") "domain" d in
   if negb (truthy skills_used) && truthy domain then
     if eq_str domain "backend" then strs ["backend"; "api-design"]
     else if eq_str domain "frontend" then strs ["frontend"]
     else if eq_str domain "database" then strs ["database"]
     else if eq_str domain "security" then strs ["security"]
     else skills_used
   else skills_used)
  = encoded_skills d.
Proof.
  cbv zeta. unfold encoded_skills.
  destruct (truthy (get_or (JArr []) "skills_used" d)); [reflexivity|].
  cbn [negb andb].
  destruct (get_or (JStr "") "domain" d) as [| | |t| |]; try reflexivity.
  - now destruct b.
  - now destruct (truthy (JNum x)).
  - cbn [truthy eq_str].
    destruct (String.eqb t "") eqn:E; [|reflexivity].
    apply String.eqb_eq in E. subst t. reflexivity.
  - now destruct items.
  - now destruct fields.
Qed.

(** The blocks of the action vector, one by one. *)
Lemma action_vector_block_values (e : Experience) (d : dict) (v : list num) :
  metadata e = JObj d ->
  extract_action_vector e = Ok v ->
  membership (encoded_skills d) all_skills = Ok (block 0 10 v)
  /\ membership (get_or (JArr []) "agents_used" d) all_agents
     = Ok (block 10 5 v)
  /\ block 15 4 v
     = one_hot_at (index_or (get_or (JStr "direct") "strategy" d)
                     strategies 0) 4
  /\ skipn 19 v = repeat zero 11.
Proof.
  intros Hmeta Hv.
  destruct (extract_action_vector_blocks e v Hv)
    as (d' & sb & ab & Hd & Es & Ea & ->).
  rewrite Hmeta in Hd. apply (f_equal (fun j => match j with
                                               | JObj f => f
                                               | _ => []
                                               end)) in Hd.
  subst d'.
  destruct (membership_bits _ _ _ Es) as [Ls _].
  destruct (membership_bits _ _ _ Ea) as [La _].
  cbn [length all_skills all_agents] in Ls, La.
  set (S := one_hot_at (index_or (get_or (JStr "direct") "strategy" d)
                          strategies 0) 4) in *.
  assert (HS : length S = 4) by reflexivity.
  unfold block. repeat split.
  - rewrite <- (inferred_skills_spec d), Es. f_equal. cbn [skipn].
    rewrite firstn_app, Ls, Nat.sub_diag, firstn_O, app_nil_r.
    now rewrite firstn_all2 by lia.
  - rewrite Ea. f_equal.
    rewrite skipn_app, skipn_all2, Ls, Nat.sub_diag by lia.
    cbn [app skipn]. rewrite firstn_app, La, Nat.sub_diag, firstn_O, app_nil_r.
    now rewrite firstn_all2 by lia.
  - rewrite app_assoc.
    rewrite skipn_app, skipn_all2 by (rewrite length_app; lia).
    rewrite length_app, Ls, La. cbn [Nat.add Nat.sub skipn app].
    rewrite firstn_app, HS, Nat.sub_diag, firstn_O, app_nil_r.
    now rewrite firstn_all2 by lia.
  - rewrite app_assoc, app_assoc.
    rewrite skipn_app, skipn_all2 by (rewrite !length_app; lia).
    rewrite !length_app, Ls, La, HS. reflexivity.
Qed.

(** C5, amended.  On every experience whose metadata is a mapping, whose
    [estimated_time] is absent or a text the inline time parser accepts, and
    whose [skills_used] and [agents_used] are absent or containers (lists,
    strings, mappings), both encoders return, with exactly 50 and exactly 30
    elements.  Nothing is asked of the categorical fields, and a value
    outside the vocabulary degrades as follows: an unknown [task_type] or
    [domain] gives the all-zero block (entries 0 to 5, resp. 6 to 10); an
    unknown [complexity] gives the block of "medium" (index 1 of entries 11
    to 13), an unknown [risk_level] the block of "low" (index 0 of entries
    14 to 16), an unknown [strategy] the block of "direct" (index 0 of
    entries 15 to 18 of the action vector).  Entries 0 to 9 of the action
    vector are the memberships of the ten skills in [skills_used], or in the
    skills of the domain when [skills_used] is falsy, and entries 10 to 14
    those of the five agents; names outside these vocabularies are passed
    over. *)
Theorem encoders_total_on_wellformed (e : Experience) (d : dict)
    (Hmeta : metadata e = JObj d)
    (Htime : returns (inline_minutes
                        (get_or (JStr "1 hour") "estimated_time" d)) = true)
    (Hskills : is_container (get_or (JArr []) "skills_used" d) = true)
    (Hagents : is_container (get_or (JArr []) "agents_used" d) = true) :
  (exists v,
     extract_state_vector e = Ok v /\ length v = 50
     /\ (unknown (get_or (JStr "feature") "task_type" d) task_types = true ->
         block 0 6 v = repeat zero 6)
     /\ (unknown (get_or (JStr "backend") "domain" d) domains = true ->
         block 6 5 v = repeat zero 5)
     /\ (unknown (get_or (JStr "medium") "complexity" d) complexity_levels
         = true ->
         block 11 3 v = [zero; one; zero])
     /\ (unknown (get_or (JStr "low") "risk_level" d) risk_levels = true ->
         block 14 3 v = [one; zero; zero]))
  /\ (exists v,
        extract_action_vector e = Ok v /\ length v = 30
        /\ (unknown (get_or (JStr "direct") "strategy" d) strategies = true ->
            block 15 4 v = [one; zero; zero; zero])
        /\ membership (encoded_skills d) all_skills = Ok (block 0 10 v)
        /\ membership (get_or (JArr []) "agents_used" d) all_agents
           = Ok (block 10 5 v)).
Proof.
  split.
  - pose proof (extract_state_vector_returns e d Hmeta) as H.
    rewrite Htime in H.
    destruct (extract_state_vector e) as [v|x] eqn:E; [|discriminate H].
    exists v. split; [reflexivity|].
    split; [now apply (extract_state_vector_length e)|].
    destruct (state_vector_block_values e d v Hmeta E)
      as (HT & HD & HC & HR & _).
    rewrite HT, HD, HC, HR. repeat split; intros Hu.
    + now rewrite one_hot_of_unknown.
    + now rewrite one_hot_of_unknown.
    + now rewrite index_or_unknown.
    + now rewrite index_or_unknown.
  - destruct (extract_action_vector_returns e d Hmeta Hskills Hagents) as [v E].
    exists v. split; [exact E|].
    split; [now apply (extract_action_vector_length e)|].
    destruct (action_vector_block_values e d v Hmeta E) as (HK & HA & HS & _).
    split; [|split; [exact HK|exact HA]].
    intros Hu. rewrite HS. now rewrite index_or_unknown.
Qed.

(** C5, witness: unknown values of the five categorical fields, a time in
    hours, one skill. *)
Lemma encoders_total_witness :
  (exists v,
     extract_state_vector
       (with_metadata [("task_type", JStr "chore"); ("domain", JStr "ops");
                       ("complexity", JStr "huge");
                       ("risk_level", JStr "extreme");
                       ("strategy", JStr "ad hoc");
                       ("estimated_time", JStr "2 hours");
                       ("skills_used", JArr [JStr "backend"])]) = Ok v
     /\ length v = 50
     /\ block 0 6 v = repeat zero 6
     /\ block 6 5 v = repeat zero 5
     /\ block 11 3 v = [zero; one; zero]
     /\ block 14 3 v = [one; zero; zero])
  /\ (exists v,
        extract_action_vector
          (with_metadata [("task_type", JStr "chore"); ("domain", JStr "ops");
                          ("complexity", JStr "huge");
                          ("risk_level", JStr "extreme");
                          ("strategy", JStr "ad hoc");
                          ("estimated_time", JStr "2 hours");
                          ("skills_used", JArr [JStr "backend"])]) = Ok v
        /\ length v = 30
        /\ block 15 4 v = [one; zero; zero; zero]).
Proof.
  destruct (encoders_total_on_wellformed
              (with_metadata [("task_type", JStr "chore");
                              ("domain", JStr "ops");
                              ("complexity", JStr "huge");
                              ("risk_level", JStr "extreme");
                              ("strategy", JStr "ad hoc");
                              ("estimated_time", JStr "2 hours");
                              ("skills_used", JArr [JStr "backend"])])
              [("task_type", JStr "chore"); ("domain", JStr "ops");
               ("complexity", JStr "huge"); ("risk_level", JStr "extreme");
               ("strategy", JStr "ad hoc");
               ("estimated_time", JStr "2 hours");
               ("skills_used", JArr [JStr "backend"])]
              eq_refl eq_refl eq_refl eq_refl)
    as [(v & Hv & Hl & HT & HD & HC & HR) (a & Ha & Hla & HS & _ & _)].
  split.
  - exists v. repeat split; auto.
  - exists a. repeat split; auto.
Defined.

(** C5, counterexample: a well-formed experience whose [estimated_time] is
    ["30 minutes"]; the inline parser finds "min", is left with ["30 utes"],
    and [extract_state_vector] raises [ValueError]. *)
Lemma extract_state_vector_thirty_minutes_raises :
  extract_state_vector (with_metadata [("estimated_time", JStr "30 minutes")])
  = Raise ValueError.
Proof. reflexivity. Qed.



(** An unknown task type, next to a known one. *)
Example unknown_task_type_block :
  option_map (firstn 6)
    (match extract_state_vector (with_metadata [("task_type", JStr "chore")])
     with Ok v => Some v | Raise _ => None end)
  = Some (repeat zero 6)
  /\ option_map (firstn 6)
       (match extract_state_vector (with_metadata [("task_type", JStr "bug")])
        with Ok v => Some v | Raise _ => None end)
     = Some [zero; one; zero; zero; zero; zero].
Proof. split; reflexivity. Qed.

End Encoder.
